(** * Booking, status lifecycle and rating aggregation of starmediatech

    A shallow embedding of the request handlers that book, reschedule,
    transition and rate consultations, and of the course enrollment route,
    over the Mongoose models of the repository.

    Conventions of the embedding:
    - an ObjectId is the string its [toString()] yields, 24 lower-case
      hexadecimal digits;
    - a [Date] is its [getTime()] value, milliseconds since the epoch;
    - a JavaScript [Number] is an integer ([Z]) where the code only counts
      or compares, an exact rational ([Q]) for a price, and an IEEE 754
      binary64 value where the code divides and rounds;
    - a string is a string of ASCII characters, and a request body is given
      as the sanitizers of its validation chain leave it;
    - a collection is the list of its documents in insertion order;
      [findOne] yields the first match;
    - a handler is a function from the clock reading, the authenticated
      user, the request and the store to the response and the new store;
      the clock readings taken within one request are one value [now];
    - a stored document has the paths its schema declares and no other:
      the schemas are strict, so a key of a constructor or of an update
      that is not a path is dropped, and a property assigned to a loaded
      document under a name that is not a path stays on the object in
      memory; [save] runs the validators of the schema and throws when
      one fails. *)

From Stdlib Require Import String Ascii List ZArith QArith Qabs Qround.
From Stdlib Require Import Bool Lia SpecFloat.
Import ListNotations.

Local Open Scope string_scope.
Local Open Scope list_scope.
Local Open Scope Z_scope.

Definition ObjectId := string.
Definition Date := Z.

(** Strict equality of two strings, as [a === b] and
    [a.toString() === b.toString()] in the handlers. *)
Notation "a === b" := (String.eqb a b) (at level 70, no associativity).
Notation "a !== b" := (negb (String.eqb a b)) (at level 70, no associativity).

(** ** JavaScript and validator helpers *)

(** [Array.prototype.includes] on an array of strings. *)
Definition includes (l : list string) (s : string) : bool :=
  existsb (String.eqb s) l.

(** No string occurs twice in a list. *)
Fixpoint distinct (l : list string) : bool :=
  match l with
  | [] => true
  | s :: rest => negb (includes rest s) && distinct rest
  end.

(** Truthiness of a possibly undefined string: [undefined] and [''] are
    falsy. *)
Definition truthy (o : option string) : bool :=
  match o with
  | Some s => s !== ""
  | None => false
  end.

(** [o || d] on a possibly undefined string. *)
Definition orDefault (o : option string) (d : string) : string :=
  match o with
  | Some s => if s === "" then d else s
  | None => d
  end.

Definition isHexDigit (c : ascii) : bool :=
  let n := Z.of_nat (nat_of_ascii c) in
  ((48 <=? n) && (n <=? 57)) || ((65 <=? n) && (n <=? 70))
  || ((97 <=? n) && (n <=? 102)).

(** A non-empty run of hexadecimal digits, [/^[0-9A-F]+$/i]. *)
Definition hexDigits (s : string) : bool :=
  (s !== "") && forallb isHexDigit (list_ascii_of_string s).

(** validator's [isHexadecimal], [/^(0x|0h)?[0-9A-F]+$/i]. *)
Definition isHexadecimal (s : string) : bool :=
  hexDigits s
  || match s with
     | String "0" (String c rest) =>
         includes ["x"; "X"; "h"; "H"] (String c "") && hexDigits rest
     | _ => false
     end.

(** validator's [isMongoId]: [isHexadecimal(str) && str.length === 24]. *)
Definition isMongoId (s : string) : bool :=
  isHexadecimal s && (Z.of_nat (String.length s) =? 24).

(** [isLength({ max })] on an optional, already trimmed field. *)
Definition optionalMaxLength (o : option string) (max : Z) : bool :=
  match o with
  | Some s => Z.of_nat (String.length s) <=? max
  | None => true
  end.

(** One validation rule: its message is reported when the check fails. *)
Definition rule (ok : bool) (msg : string) : list string :=
  if ok then [] else [msg].

(** The JSON envelope [{ success, message, errors, data }] with its HTTP
    status. *)
Record Response (A : Type) := mkResponse {
  code : Z;
  success : bool;
  message : string;
  errors : list string;
  data : option A
}.
Arguments mkResponse {A}.
Arguments code {A}.
Arguments success {A}.
Arguments message {A}.
Arguments errors {A}.
Arguments data {A}.

Definition fail {A : Type} (c : Z) (msg : string) : Response A :=
  mkResponse c false msg [] None.

Definition invalid {A : Type} (errs : list string) : Response A :=
  mkResponse 400 false "Validation failed" errs None.

Definition ok {A : Type} (c : Z) (msg : string) (d : A) : Response A :=
  mkResponse c true msg [] (Some d).

(** ** Numbers that are divided and rounded *)

(** An IEEE 754 binary64 value. *)
Definition Number := spec_float.

Definition ofZ (z : Z) : Number := binary_normalize 53 1024 z 0 false.

(** The value of a finite double as a rational. *)
Definition toQ (x : Number) : Q :=
  match x with
  | S754_finite s m e =>
      let v :=
        (inject_Z (Z.pos m)
         * (if 0 <=? e then inject_Z (2 ^ e) else / inject_Z (2 ^ (- e))))%Q in
      if s then (- v)%Q else v
  | _ => 0%Q
  end.

Definition sumZ (l : list Z) : Z := fold_right Z.add 0 l.

(** The [$avg] accumulator over a group of integer ratings: their sum
    divided by their number, as a double. *)
Definition avg (l : list Z) : Number :=
  SFdiv 53 1024 (ofZ (sumZ l)) (ofZ (Z.of_nat (length l))).

(** [parseFloat(x.toFixed(1))] on a double below 1e21 in magnitude:
    [toFixed] takes the integer [n] for which [n / 10] is nearest to the
    exact value of [x], the larger one on a tie, the sign set apart;
    [parseFloat] reads the decimal back as the nearest double.  Larger
    values, infinities and NaN are printed and read back as they are. *)
Definition toFixed1 (x : Number) : Number :=
  match x with
  | S754_finite _ _ _ =>
      let q := toQ x in
      if Qle_bool (inject_Z (10 ^ 21)) (Qabs q) then x
      else
        let n := Qfloor (Qabs q * 10 + (1 # 2))%Q in
        SFdiv 53 1024 (ofZ (if Qle_bool 0 q then n else - n)) (ofZ 10)
  | _ => x
  end.

(** The authenticated user as the consultation and course routes see it. *)
Module ReqUser.
Record t := mk { userId : string; role : string }.
End ReqUser.

(** * The object-document layer

    What the handlers rely on of Mongoose: values of properties, documents
    in memory, the cast of identifiers, strict updates. *)

#[local] Unset Elimination Schemes.

(** A JavaScript value held by a property that is not a schema path. *)
Inductive Value :=
| VUndefined
| VBool (b : bool)
| VNumber (x : Number)
| VString (s : string)
| VDate (d : Date)
| VObject (fields : list (string * Value))
| VArray (items : list Value).

#[local] Set Elimination Schemes.

(** Truthiness of a value. *)
Definition truthyValue (v : Value) : bool :=
  match v with
  | VUndefined => false
  | VBool b => b
  | VNumber (S754_zero _) => false
  | VNumber S754_nan => false
  | VNumber _ => true
  | VString s => s !== ""
  | VDate _ => true
  | VObject _ => true
  | VArray _ => true
  end.

(** [v !== s] for a string literal [s]. *)
Definition differsFrom (v : Value) (s : string) : bool :=
  match v with
  | VString x => x !== s
  | _ => true
  end.

(** A possibly undefined string of a request as a value. *)
Definition ofString (o : option string) : Value :=
  match o with
  | Some s => VString s
  | None => VUndefined
  end.

(** A document in memory: the paths of its schema, and the properties
    that were assigned to the object under other names. *)
Module Document.
Record t (A : Type) := mk {
  paths : A;
  props : list (string * Value)
}.
Arguments mk {A}.
Arguments paths {A}.
Arguments props {A}.

(** A document as a query returns it. *)
Definition load {A : Type} (a : A) : t A := mk a [].

(** [doc.name] for a name that is not a path: the property last
    assigned, [undefined] when there is none. *)
Definition get {A : Type} (name : string) (d : t A) : Value :=
  match find (fun kv => fst kv === name) (props d) with
  | Some kv => snd kv
  | None => VUndefined
  end.

(** [doc.name = v] for a name that is not a path. *)
Definition put {A : Type} (name : string) (v : Value) (d : t A) : t A :=
  mk (paths d) ((name, v) :: props d).

(** [doc.path = v] for a path of the schema, [f] being its setter. *)
Definition assign {A : Type} (f : A -> A) (d : t A) : t A :=
  mk (f (paths d)) (props d).
End Document.

(** The options of the connection on which versions of Mongoose differ:
    under [strictQuery] a filter condition on a name that is not a path
    is dropped from the filter; under [byteStringIds] a string of twelve
    characters is read as the twelve bytes of an ObjectId. *)
Module Mongoose.
Record options := mk {
  strictQuery : bool;
  byteStringIds : bool
}.
End Mongoose.

Definition toLowerCase (c : ascii) : ascii :=
  let n := nat_of_ascii c in
  if ((65 <=? n) && (n <=? 90))%nat then ascii_of_nat (n + 32) else c.

Definition hexDigit (n : nat) : ascii :=
  if (n <? 10)%nat then ascii_of_nat (48 + n) else ascii_of_nat (87 + n).

(** The two hexadecimal digits of a byte. *)
Definition hexOfByte (c : ascii) : list ascii :=
  let n := nat_of_ascii c in
  [hexDigit (Nat.div n 16); hexDigit (Nat.modulo n 16)].

(** The cast of a string to an ObjectId: 24 hexadecimal digits, read
    without regard to case, or, where the driver takes them, twelve
    bytes; [None] is a [CastError]. *)
Definition castObjectId (o : Mongoose.options) (s : string)
  : option ObjectId :=
  let cs := list_ascii_of_string s in
  if (Z.of_nat (String.length s) =? 24) && forallb isHexDigit cs
  then Some (string_of_list_ascii (map toLowerCase cs))
  else if Mongoose.byteStringIds o && (Z.of_nat (String.length s) =? 12)
  then Some (string_of_list_ascii (flat_map hexOfByte cs))
  else None.

(** A condition [{ name: value }] of a filter, with a defined value, on a
    name that is not a path of the schema: under [strictQuery] it is
    dropped and every document passes it; otherwise it reaches the
    database, where no document of the collection has the name. *)
Definition undeclaredCondition (o : Mongoose.options) : bool :=
  Mongoose.strictQuery o.

(** The keys of an update that are paths of the schema; the others are
    dropped. *)
Definition strict (paths : list string) (update : list (string * Value))
  : list (string * Value) :=
  filter (fun kv => includes paths (fst kv)) update.

(** The outcome of [findById]. *)
Inductive Lookup (A : Type) :=
| CastError
| NotFound
| Found (d : A).
Arguments CastError {A}.
Arguments NotFound {A}.
Arguments Found {A}.

(** * The models

    Each module holds the paths of a schema, its validators, and the
    collection operations the handlers call on the model. *)

(** ** [models/Consultation.js] *)
Module Consultation.

(** The paths of [consultationSchema], with the [_id] and the two
    timestamps Mongoose adds.  A path the schema requires but that a
    handler may leave unset is an [option]; [user], [consultant] and
    [scheduledDate] are set by every handler that builds a document, and
    [duration], [status], [paymentStatus] and the two flags have defaults. *)
Record t := mk {
  _id : ObjectId;
  user : ObjectId;
  consultant : ObjectId;
  serviceType : option string;
  title : option string;
  description : option string;
  scheduledDate : Date;
  duration : Z;
  status : string;
  meetingLink : option string;
  meetingPassword : option string;
  price : option Q;
  paymentStatus : string;
  paymentIntentId : option string;
  cancellationReason : option string;
  rescheduledFrom : option Date;
  userNotes : option string;
  consultantNotes : option string;
  rating : option Z;
  review : option string;
  reminderSent : bool;
  followUpSent : bool;
  createdAt : Date;
  updatedAt : Date
}.

Definition set_scheduledDate (v : Date) (c : t) : t :=
  mk (_id c) (user c) (consultant c) (serviceType c) (title c)
  (description c) v (duration c) (status c) (meetingLink c)
  (meetingPassword c) (price c) (paymentStatus c) (paymentIntentId c)
  (cancellationReason c) (rescheduledFrom c) (userNotes c)
  (consultantNotes c) (rating c) (review c) (reminderSent c) (followUpSent c)
  (createdAt c) (updatedAt c).

Definition set_status (v : string) (c : t) : t :=
  mk (_id c) (user c) (consultant c) (serviceType c) (title c)
  (description c) (scheduledDate c) (duration c) v (meetingLink c)
  (meetingPassword c) (price c) (paymentStatus c) (paymentIntentId c)
  (cancellationReason c) (rescheduledFrom c) (userNotes c)
  (consultantNotes c) (rating c) (review c) (reminderSent c) (followUpSent c)
  (createdAt c) (updatedAt c).

Definition set_cancellationReason (v : option string) (c : t) : t :=
  mk (_id c) (user c) (consultant c) (serviceType c) (title c)
  (description c) (scheduledDate c) (duration c) (status c) (meetingLink c)
  (meetingPassword c) (price c) (paymentStatus c) (paymentIntentId c) v
  (rescheduledFrom c) (userNotes c) (consultantNotes c) (rating c) (review c)
  (reminderSent c) (followUpSent c) (createdAt c) (updatedAt c).

Definition set_rating (v : option Z) (c : t) : t :=
  mk (_id c) (user c) (consultant c) (serviceType c) (title c)
  (description c) (scheduledDate c) (duration c) (status c) (meetingLink c)
  (meetingPassword c) (price c) (paymentStatus c) (paymentIntentId c)
  (cancellationReason c) (rescheduledFrom c) (userNotes c)
  (consultantNotes c) v (review c) (reminderSent c) (followUpSent c)
  (createdAt c) (updatedAt c).

Definition set_updatedAt (v : Date) (c : t) : t :=
  mk (_id c) (user c) (consultant c) (serviceType c) (title c)
  (description c) (scheduledDate c) (duration c) (status c) (meetingLink c)
  (meetingPassword c) (price c) (paymentStatus c) (paymentIntentId c)
  (cancellationReason c) (rescheduledFrom c) (userNotes c)
  (consultantNotes c) (rating c) (review c) (reminderSent c) (followUpSent c)
  (createdAt c) v.

(** The names of the paths. *)
Definition paths : list string :=
  ["_id"; "user"; "consultant"; "serviceType"; "title"; "description";
   "scheduledDate"; "duration"; "status"; "meetingLink"; "meetingPassword";
   "price"; "paymentStatus"; "paymentIntentId"; "cancellationReason";
   "rescheduledFrom"; "userNotes"; "consultantNotes"; "rating"; "review";
   "reminderSent"; "followUpSent"; "createdAt"; "updatedAt"; "__v"].

Definition serviceTypes : list string :=
  ["web-development"; "graphic-design"; "it-solutions"; "tech-consultancy";
   "career-guidance"; "project-review"].

Definition durations : list Z := [30; 60; 90; 120].

Definition statuses : list string :=
  ["pending"; "confirmed"; "completed"; "cancelled"; "rescheduled"].

Definition paymentStatuses : list string :=
  ["pending"; "paid"; "refunded"; "failed"].

(** [required] on a string path: defined and not empty. *)
Definition requiredString (o : option string) : bool := truthy o.

(** The validators of the schema, each failure reported under the name
    of its path.  [required] fails on an undefined value; every other
    validator passes it. *)
Definition validate (c : t) : list string :=
  rule (requiredString (serviceType c)
        && match serviceType c with
           | Some s => includes serviceTypes s
           | None => true
           end)
    "serviceType"
  ++ rule (requiredString (title c) && optionalMaxLength (title c) 100)
       "title"
  ++ rule (requiredString (description c)
           && optionalMaxLength (description c) 500)
       "description"
  ++ rule (existsb (Z.eqb (duration c)) durations) "duration"
  ++ rule (includes statuses (status c)) "status"
  ++ rule match price c with
          | Some p => Qle_bool 0 p
          | None => false
          end
       "price"
  ++ rule (includes paymentStatuses (paymentStatus c)) "paymentStatus"
  ++ rule match rating c with
          | Some r => (1 <=? r) && (r <=? 5)
          | None => true
          end
       "rating"
  ++ rule (optionalMaxLength (review c) 500) "review".

(** [{ name: { $exists: true } }] on a stored document: a path that may
    be undefined is there when it is defined, and a name that is not a
    path is on no stored document. *)
Definition exists_ (name : string) (c : t) : bool :=
  let defined {A : Type} (o : option A) : bool :=
    match o with
    | Some _ => true
    | None => false
    end in
  if name === "serviceType" then defined (serviceType c)
  else if name === "title" then defined (title c)
  else if name === "description" then defined (description c)
  else if name === "meetingLink" then defined (meetingLink c)
  else if name === "meetingPassword" then defined (meetingPassword c)
  else if name === "price" then defined (price c)
  else if name === "paymentIntentId" then defined (paymentIntentId c)
  else if name === "cancellationReason" then defined (cancellationReason c)
  else if name === "rescheduledFrom" then defined (rescheduledFrom c)
  else if name === "userNotes" then defined (userNotes c)
  else if name === "consultantNotes" then defined (consultantNotes c)
  else if name === "rating" then defined (rating c)
  else if name === "review" then defined (review c)
  else includes paths name.

(** The virtual [endTime]; it has a getter and no setter. *)
Definition endTime (this : t) : Date :=
  scheduledDate this + duration this * 60000.

(** The virtual [isPast]. *)
Definition isPast (now : Date) (this : t) : bool :=
  scheduledDate this <? now.

(** The virtual [canBeCancelled]: at least 24 hours ahead and confirmed. *)
Definition canBeCancelled (now : Date) (this : t) : bool :=
  (now <? scheduledDate this - 24 * 60 * 60000)
  && (status this === "confirmed").

(** [Consultation.findById]. *)
Definition findById (o : Mongoose.options) (id : string) (cs : list t)
  : Lookup t :=
  match castObjectId o id with
  | None => CastError
  | Some oid =>
      match find (fun c => _id c === oid) cs with
      | Some c => Found c
      | None => NotFound
      end
  end.

(** The stored document with the [_id] of [d] replaced by [d]. *)
Fixpoint updateDoc (d : t) (cs : list t) : list t :=
  match cs with
  | [] => []
  | c :: rest =>
      if _id c === _id d then d :: rest else c :: updateDoc d rest
  end.

(** [save] of a new document: it is validated and inserted; [None] when
    [save] throws. *)
Definition insert (d : t) (cs : list t) : option (list t) :=
  match validate d with
  | [] => if existsb (fun c => _id c === _id d) cs then None
          else Some (cs ++ [d])
  | _ => None
  end.

(** [save] of a loaded document: its paths are validated and written;
    [None] when [save] throws. *)
Definition save (d : Document.t t) (cs : list t) : option (list t) :=
  match validate (Document.paths d) with
  | [] => Some (updateDoc (Document.paths d) cs)
  | _ => None
  end.

(** [toJSON]: the paths of the document. *)
Definition toJSON (d : Document.t t) : t := Document.paths d.

(** The static [getConsultantSchedule]. *)
Definition getConsultantSchedule (consultantId : ObjectId)
  (startDate endDate : Date) (cs : list t) : list (Date * Z) :=
  map (fun c => (scheduledDate c, duration c))
    (filter (fun c => (consultant c === consultantId)
                      && (startDate <=? scheduledDate c)
                      && (scheduledDate c <=? endDate)
                      && includes ["confirmed"; "pending"] (status c))
       cs).

(** The query of the method [hasTimeConflict]: another confirmed or
    pending consultation of the same consultant that starts before this
    one ends and less than this one's duration before it starts. *)
Definition timeConflict (this c : t) : bool :=
  (consultant c === consultant this)
  && (scheduledDate c <? endTime this)
  && (scheduledDate this - duration this * 60000 <? scheduledDate c)
  && includes ["confirmed"; "pending"] (status c)
  && (_id c !== _id this).

Definition hasTimeConflict (this : t) (cs : list t) : bool :=
  match find (timeConflict this) cs with
  | Some _ => true
  | None => false
  end.

End Consultation.

(** ** [models/Consultant.js] *)
Module Consultant.

Record t := mk {
  _id : ObjectId;
  user : option ObjectId;
  name : option string;
  email : option string;
  isActive : bool;
  approvalStatus : string;
  specialization : option string;
  bio : option string;
  createdAt : Date
}.

(** The names of the paths. *)
Definition paths : list string :=
  ["_id"; "user"; "name"; "email"; "isActive"; "approvalStatus";
   "specialization"; "bio"; "createdAt"; "__v"].

(** One key of an update written to a document: a string to a string
    path, a boolean to [isActive], a date to [createdAt]. *)
Definition assignPath (path : string) (v : Value) (k : t) : t :=
  match v with
  | VString s =>
      if path === "name"
      then mk (_id k) (user k) (Some s) (email k) (isActive k)
             (approvalStatus k) (specialization k) (bio k) (createdAt k)
      else if path === "email"
      then mk (_id k) (user k) (name k) (Some s) (isActive k)
             (approvalStatus k) (specialization k) (bio k) (createdAt k)
      else if path === "approvalStatus"
      then mk (_id k) (user k) (name k) (email k) (isActive k) s
             (specialization k) (bio k) (createdAt k)
      else if path === "specialization"
      then mk (_id k) (user k) (name k) (email k) (isActive k)
             (approvalStatus k) (Some s) (bio k) (createdAt k)
      else if path === "bio"
      then mk (_id k) (user k) (name k) (email k) (isActive k)
             (approvalStatus k) (specialization k) (Some s) (createdAt k)
      else k
  | VBool b =>
      if path === "isActive"
      then mk (_id k) (user k) (name k) (email k) b (approvalStatus k)
             (specialization k) (bio k) (createdAt k)
      else k
  | VDate d =>
      if path === "createdAt"
      then mk (_id k) (user k) (name k) (email k) (isActive k)
             (approvalStatus k) (specialization k) (bio k) d
      else k
  | _ => k
  end.

(** [Consultant.findByIdAndUpdate(id, update)]: the keys of the update
    that are paths are written to the first document with the [_id]. *)
Fixpoint findByIdAndUpdate (id : ObjectId) (update : list (string * Value))
  (ks : list t) : list t :=
  match ks with
  | [] => []
  | k :: rest =>
      if _id k === id
      then fold_left (fun k kv => assignPath (fst kv) (snd kv) k)
             (strict paths update) k
           :: rest
      else k :: findByIdAndUpdate id update rest
  end.

End Consultant.

(** ** [models/Service.js]

    Of [serviceSchema], the paths the consultation routes read. *)
Module Service.
Record t := mk {
  _id : ObjectId;
  isActive : bool;
  consultant : ObjectId;
  price : Q
}.
End Service.

(** ** [models/Course.js]

    Of [courseSchema], the paths the enrollment route reads. *)
Module Course.

Record t := mk {
  _id : ObjectId;
  price : Q;
  studentsEnrolled : Z;
  isPublished : bool
}.

(** [Course.findById]. *)
Definition findById (o : Mongoose.options) (id : string) (cs : list t)
  : Lookup t :=
  match castObjectId o id with
  | None => CastError
  | Some oid =>
      match find (fun c => _id c === oid) cs with
      | Some c => Found c
      | None => NotFound
      end
  end.

Fixpoint updateDoc (d : t) (cs : list t) : list t :=
  match cs with
  | [] => []
  | c :: rest =>
      if _id c === _id d then d :: rest else c :: updateDoc d rest
  end.

(** [save] of a loaded course; of the validators, the one on a path kept
    here: [price] has [min: 0]. *)
Definition save (d : Document.t t) (cs : list t) : option (list t) :=
  if Qle_bool 0 (price (Document.paths d))
  then Some (updateDoc (Document.paths d) cs)
  else None.

End Course.

(** ** [models/Enrollment.js]

    Of [enrollmentSchema], the paths the enrollment route sets or leaves
    to their defaults and that have a validator; [amountPaid] is the
    nested path [payment.amountPaid]. *)
Module Enrollment.

Record t := mk {
  _id : ObjectId;
  user : ObjectId;
  course : ObjectId;
  enrollmentType : string;
  status : string;
  amountPaid : option Q
}.

Definition enrollmentTypes : list string :=
  ["free"; "paid"; "trial"; "corporate"; "scholarship"].

Definition statuses : list string :=
  ["active"; "completed"; "cancelled"; "paused"; "expired"].

(** The validators: [payment.amountPaid] is required when
    [enrollmentType] is paid, and has [min: 0]. *)
Definition validate (e : t) : list string :=
  rule (includes enrollmentTypes (enrollmentType e)) "enrollmentType"
  ++ rule (includes statuses (status e)) "status"
  ++ rule match amountPaid e with
          | Some a => Qle_bool 0 a
          | None => enrollmentType e !== "paid"
          end
       "payment.amountPaid".

(** [save] of a new enrollment: it is validated and inserted; the insert
    throws on a duplicate [_id] and on a duplicate of the unique index
    [{ user: 1, course: 1 }]. *)
Definition insert (e : t) (es : list t) : option (list t) :=
  match validate e with
  | [] =>
      if existsb (fun x => (_id x === _id e)
                           || ((user x === user e) && (course x === course e)))
           es
      then None
      else Some (es ++ [e])
  | _ => None
  end.

End Enrollment.

(** ** [models/User.js] *)
Module User.

(** Modelled from the spec: the User model is not among the sources.  In
    the controller family the consultant of a consultation is a user, and
    the aggregate rating is written back onto it; a user is kept with its
    [_id] and that rating. *)
Record t := mk {
  _id : ObjectId;
  rating : option Number
}.

(** [User.findByIdAndUpdate(id, { rating })]; [None] is [null]. *)
Fixpoint findByIdAndUpdate (id : ObjectId) (rating : option Number)
  (us : list t) : list t :=
  match us with
  | [] => []
  | u :: rest =>
      if _id u === id
      then mk (_id u) rating :: rest
      else u :: findByIdAndUpdate id rating rest
  end.
End User.

(** * The consultation routes

    [POST /api/consultations], [PUT /api/consultations/:id/reschedule],
    [PUT /api/consultations/:id/status] and
    [POST /api/consultations/:id/feedback], with the rating helper the
    last one calls. *)
Module ConsultationRoutes.

(** The connection and the three collections the routes query. *)
Module Store.
Record t := mk {
  options : Mongoose.options;
  consultations : list Consultation.t;
  services : list Service.t;
  consultants : list Consultant.t
}.
Definition set_consultations (v : list Consultation.t) (st : t) : t :=
  mk (options st) v (services st) (consultants st).
Definition set_consultants (v : list Consultant.t) (st : t) : t :=
  mk (options st) (consultations st) (services st) v.
End Store.

(** ** Request bodies and their validation chains *)

(** A date of a request body, a string: one that [isISO8601] refuses;
    one that it passes and of which [new Date] makes an invalid date (a
    week date, an ordinal date); or the instant [new Date] makes of it. *)
Inductive DateString :=
| NotISO8601
| InvalidDate
| Instant (d : Date).

Module CreateBody.
Record t := mk {
  service : string;
  consultant : string;
  scheduledDate : DateString;
  duration : Z;
  timeSlot : string;
  notes : option string;
  specialRequirements : option string
}.
End CreateBody.

Module RescheduleBody.
Record t := mk {
  scheduledDate : DateString;
  timeSlot : string;
  reason : option string
}.
End RescheduleBody.

Module StatusBody.
Record t := mk {
  status : string;
  cancellationReason : option string
}.
End StatusBody.

Module FeedbackBody.
Record t := mk {
  rating : Z;
  feedback : option string
}.
End FeedbackBody.

Definition isISO8601 (s : DateString) : bool :=
  match s with
  | NotISO8601 => false
  | InvalidDate => true
  | Instant _ => true
  end.

(** [new Date(s)]; [None] is an invalid date. *)
Definition new_Date (s : DateString) : option Date :=
  match s with
  | Instant d => Some d
  | _ => None
  end.

Definition consultationValidation (b : CreateBody.t) : list string :=
  rule (isMongoId (CreateBody.service b)) "Valid service ID is required"
  ++ rule (isMongoId (CreateBody.consultant b))
       "Valid consultant ID is required"
  ++ rule (isISO8601 (CreateBody.scheduledDate b))
       "Valid scheduled date is required"
  ++ rule ((15 <=? CreateBody.duration b) && (CreateBody.duration b <=? 480))
       "Duration must be between 15 and 480 minutes"
  ++ rule (CreateBody.timeSlot b !== "") "Time slot is required"
  ++ rule (optionalMaxLength (CreateBody.notes b) 1000)
       "Notes must be less than 1000 characters"
  ++ rule (optionalMaxLength (CreateBody.specialRequirements b) 500)
       "Special requirements must be less than 500 characters".

Definition rescheduleValidation (b : RescheduleBody.t) : list string :=
  rule (isISO8601 (RescheduleBody.scheduledDate b))
    "Valid scheduled date is required"
  ++ rule (RescheduleBody.timeSlot b !== "") "Time slot is required"
  ++ rule (optionalMaxLength (RescheduleBody.reason b) 500)
       "Reason must be less than 500 characters".

Definition statusValidation (b : StatusBody.t) : list string :=
  rule (includes ["confirmed"; "cancelled"; "completed"; "no-show"]
          (StatusBody.status b))
    "Valid status is required"
  ++ rule (optionalMaxLength (StatusBody.cancellationReason b) 500)
       "Cancellation reason must be less than 500 characters".

Definition feedbackValidation (b : FeedbackBody.t) : list string :=
  rule ((1 <=? FeedbackBody.rating b) && (FeedbackBody.rating b <=? 5))
    "Rating must be between 1 and 5"
  ++ rule (optionalMaxLength (FeedbackBody.feedback b) 1000)
       "Feedback must be less than 1000 characters".

(** ** POST /api/consultations *)

(** The conflict query of the create route: same consultant, same
    [scheduledDate], same [timeSlot], status scheduled or confirmed.
    [timeSlot] is not a path of the Consultation schema. *)
Definition createConflict (o : Mongoose.options) (consultant : ObjectId)
  (scheduledDateTime : Date) (timeSlot : string) (c : Consultation.t)
  : bool :=
  (Consultation.consultant c === consultant)
  && (Consultation.scheduledDate c =? scheduledDateTime)
  && undeclaredCondition o
  && includes ["scheduled"; "confirmed"] (Consultation.status c).

(** [new Consultation({ user, service, consultant, scheduledDate, endTime,
    duration, timeSlot, notes, specialRequirements, amount, status })]:
    [service], [timeSlot], [notes], [specialRequirements] and [amount]
    are not paths and are dropped, [endTime] is a virtual without a
    setter; the paths the literal does not name have their defaults or
    are undefined. *)
Definition newConsultation (now : Date) (newId user consultant : ObjectId)
  (scheduledDate : Date) (duration : Z) (status : string)
  : Consultation.t :=
  Consultation.mk newId user consultant None None None scheduledDate duration
    status None None None "pending" None None None None None None None
    false false now now.

(** [newId] is the [_id] the new document is given.  A [CastError] of a
    query, and of the document's [user] at [save], is thrown into the
    handler's [catch].  An invalid date is not below the clock reading,
    and the conflict query that follows cannot cast it. *)
Definition post_consultations (now : Date) (newId : ObjectId)
  (user : ReqUser.t) (body : CreateBody.t) (st : Store.t)
  : Response Consultation.t * Store.t :=
  let serverError := fail 500 "Server error while booking consultation" in
  match consultationValidation body with
  | [] =>
    let duration := CreateBody.duration body in
    let timeSlot := CreateBody.timeSlot body in
    match castObjectId (Store.options st) (CreateBody.service body) with
    | None => (serverError, st)
    | Some service =>
      match find (fun s => (Service._id s === service) && Service.isActive s)
              (Store.services st) with
      | None => (fail 404 "Service not found or inactive", st)
      | Some serviceDoc =>
        match castObjectId (Store.options st) (CreateBody.consultant body)
        with
        | None => (serverError, st)
        | Some consultant =>
          match find (fun k => (Consultant._id k === consultant)
                               && Consultant.isActive k)
                  (Store.consultants st) with
          | None => (fail 404 "Consultant not found or inactive", st)
          | Some consultantDoc =>
            if Consultant._id consultantDoc !== Service.consultant serviceDoc
            then (fail 400 "Consultant does not offer this service", st)
            else
              match new_Date (CreateBody.scheduledDate body) with
              | None => (serverError, st)
              | Some scheduledDateTime =>
                if scheduledDateTime <=? now
                then (fail 400 "Scheduled date must be in the future", st)
                else
                  match find (createConflict (Store.options st) consultant
                                scheduledDateTime timeSlot)
                          (Store.consultations st) with
                  | Some _ =>
                    (fail 400
                       "Consultant is not available at this time. Please choose another time slot.",
                     st)
                  | None =>
                    match castObjectId (Store.options st)
                            (ReqUser.userId user) with
                    | None => (serverError, st)
                    | Some userId =>
                      let consultation :=
                        newConsultation now newId userId consultant
                          scheduledDateTime duration "scheduled" in
                      match Consultation.insert consultation
                              (Store.consultations st) with
                      | None => (serverError, st)
                      | Some cs =>
                        (ok 201 "Consultation booked successfully"
                           consultation,
                         Store.set_consultations cs st)
                      end
                    end
                  end
              end
          end
        end
      end
    end
  | errs => (invalid errs, st)
  end.

(** ** PUT /api/consultations/:id/reschedule *)

(** The conflict query of the reschedule route: as at creation, and not
    the consultation itself.  As at creation, an invalid date is not
    below the clock reading and the query cannot cast it. *)
Definition rescheduleConflict (o : Mongoose.options)
  (consultation : Consultation.t) (newScheduledDate : Date)
  (timeSlot : string) (c : Consultation.t) : bool :=
  (Consultation.consultant c === Consultation.consultant consultation)
  && (Consultation.scheduledDate c =? newScheduledDate)
  && undeclaredCondition o
  && includes ["scheduled"; "confirmed"] (Consultation.status c)
  && (Consultation._id c !== Consultation._id consultation).

(** The assignments of the route's update block, in their order.
    [scheduledDate], [status] and [updatedAt] are paths; [timeSlot] is
    not; the assignment to the virtual [endTime], which has no setter,
    stores nothing; [rescheduleHistory] is read from the document, and
    [push] throws unless an array is found there ([None]). *)
Definition rescheduleUpdate (now : Date) (user : ReqUser.t)
  (newScheduledDate : Date) (timeSlot : string) (reason : option string)
  (consultation : Document.t Consultation.t)
  : option (Document.t Consultation.t) :=
  let consultation :=
    Document.assign (Consultation.set_scheduledDate newScheduledDate)
      consultation in
  let consultation :=
    Document.put "timeSlot" (VString timeSlot) consultation in
  let consultation :=
    Document.assign (Consultation.set_status "rescheduled") consultation in
  match Document.get "rescheduleHistory" consultation with
  | VArray entries =>
    let entry :=
      VObject
        [("previousDate",
          VDate (Consultation.scheduledDate (Document.paths consultation)));
         ("newDate", VDate newScheduledDate);
         ("reason", VString (orDefault reason "No reason provided"));
         ("rescheduledBy", VString (ReqUser.userId user));
         ("rescheduledAt", VDate now)] in
    let consultation :=
      Document.put "rescheduleHistory" (VArray (entries ++ [entry]))
        consultation in
    Some (Document.assign (Consultation.set_updatedAt now) consultation)
  | _ => None
  end.

Definition put_reschedule (now : Date) (user : ReqUser.t) (id : string)
  (body : RescheduleBody.t) (st : Store.t)
  : Response Consultation.t * Store.t :=
  let serverError :=
    fail 500 "Server error while rescheduling consultation" in
  match rescheduleValidation body with
  | [] =>
    match Consultation.findById (Store.options st) id
            (Store.consultations st) with
    | CastError => (serverError, st)
    | NotFound => (fail 404 "Consultation not found", st)
    | Found c =>
      let consultation := Document.load c in
      if (Consultation.user c !== ReqUser.userId user)
         && (ReqUser.role user !== "admin")
      then (fail 403 "Not authorized to reschedule this consultation", st)
      else if negb (includes ["scheduled"; "confirmed"]
                      (Consultation.status c))
      then
        (fail 400
           "Only scheduled or confirmed consultations can be rescheduled",
         st)
      else
        let timeSlot := RescheduleBody.timeSlot body in
        let reason := RescheduleBody.reason body in
        match new_Date (RescheduleBody.scheduledDate body) with
        | None => (serverError, st)
        | Some newScheduledDate =>
          if newScheduledDate <=? now
          then (fail 400 "New scheduled date must be in the future", st)
          else
            match find (rescheduleConflict (Store.options st) c
                          newScheduledDate timeSlot)
                    (Store.consultations st) with
            | Some _ =>
              (fail 400
                 "Consultant is not available at this time. Please choose another time slot.",
               st)
            | None =>
              match rescheduleUpdate now user newScheduledDate timeSlot
                      reason consultation with
              | None => (serverError, st)
              | Some consultation =>
                match Consultation.save consultation
                        (Store.consultations st) with
                | None => (serverError, st)
                | Some cs =>
                  (ok 200 "Consultation rescheduled successfully"
                     (Consultation.toJSON consultation),
                   Store.set_consultations cs st)
                end
              end
            end
        end
    end
  | errs => (invalid errs, st)
  end.

(** ** PUT /api/consultations/:id/status *)

(** The authorization cascade on the requested status. *)
Definition isAuthorized (user : ReqUser.t) (consultation : Consultation.t)
  (status : string) : bool :=
  if (status === "confirmed")
     && (Consultation.consultant consultation === ReqUser.userId user)
  then true
  else if status === "cancelled"
  then (Consultation.user consultation === ReqUser.userId user)
       || (Consultation.consultant consultation === ReqUser.userId user)
       || (ReqUser.role user === "admin")
  else if (status === "completed")
          && (Consultation.consultant consultation === ReqUser.userId user)
  then true
  else if (status === "no-show")
          && (Consultation.consultant consultation === ReqUser.userId user)
  then true
  else if ReqUser.role user === "admin"
  then true
  else false.

(** The names every object inherits from [Object.prototype]. *)
Definition objectPrototypeKeys : list string :=
  ["constructor"; "toString"; "toLocaleString"; "valueOf"; "hasOwnProperty";
   "isPrototypeOf"; "propertyIsEnumerable"; "__proto__"; "__defineGetter__";
   "__defineSetter__"; "__lookupGetter__"; "__lookupSetter__"].

(** What [validTransitions[from]] finds. *)
Inductive Targets :=
| Own (targets : list string)
| Inherited
| Undefined.

(** The [validTransitions] object under a key: one of its six own
    properties, a property inherited from [Object.prototype], or
    nothing. *)
Definition validTransitions (from : string) : Targets :=
  if from === "scheduled" then Own ["confirmed"; "cancelled"]
  else if from === "confirmed" then Own ["completed"; "cancelled"; "no-show"]
  else if from === "rescheduled" then Own ["confirmed"; "cancelled"]
  else if from === "cancelled" then Own []
  else if from === "completed" then Own []
  else if from === "no-show" then Own []
  else if includes objectPrototypeKeys from then Inherited
  else Undefined.

(** [validTransitions[from]?.includes(to)]: [undefined] is falsy; an
    inherited property is neither null nor undefined and has no
    [includes], so the call throws ([None]). *)
Definition transitionAllowed (from to : string) : option bool :=
  match validTransitions from with
  | Own targets => Some (includes targets to)
  | Inherited => None
  | Undefined => Some false
  end.

(** The assignments of the route's update block, in their order.
    [status], [updatedAt] and [cancellationReason] are paths of the
    schema; [cancelledBy], [cancelledAt] and [completedAt] are not. *)
Definition statusUpdate (now : Date) (user : ReqUser.t) (status : string)
  (cancellationReason : option string)
  (consultation : Document.t Consultation.t) : Document.t Consultation.t :=
  let consultation :=
    Document.assign (Consultation.set_status status) consultation in
  let consultation :=
    Document.assign (Consultation.set_updatedAt now) consultation in
  let consultation :=
    if (status === "cancelled") && truthy cancellationReason
    then
      Document.put "cancelledAt" (VDate now)
        (Document.put "cancelledBy" (VString (ReqUser.userId user))
           (Document.assign
              (Consultation.set_cancellationReason cancellationReason)
              consultation))
    else consultation in
  if status === "completed"
  then Document.put "completedAt" (VDate now) consultation
  else consultation.

Definition put_status (now : Date) (user : ReqUser.t) (id : string)
  (body : StatusBody.t) (st : Store.t)
  : Response Consultation.t * Store.t :=
  let serverError :=
    fail 500 "Server error while updating consultation status" in
  match statusValidation body with
  | [] =>
    match Consultation.findById (Store.options st) id
            (Store.consultations st) with
    | CastError => (serverError, st)
    | NotFound => (fail 404 "Consultation not found", st)
    | Found c =>
      let consultation := Document.load c in
      let status := StatusBody.status body in
      let cancellationReason := StatusBody.cancellationReason body in
      if negb (isAuthorized user c status)
      then (fail 403 "Not authorized to update consultation status", st)
      else
        match transitionAllowed (Consultation.status c) status with
        | None => (serverError, st)
        | Some false =>
          (fail 400
             ("Cannot change status from "
              ++ Consultation.status c ++ " to " ++ status)%string,
           st)
        | Some true =>
          let consultation :=
            statusUpdate now user status cancellationReason consultation in
          match Consultation.save consultation (Store.consultations st) with
          | None => (serverError, st)
          | Some cs =>
            (ok 200 ("Consultation " ++ status ++ " successfully")%string
               (Consultation.toJSON consultation),
             Store.set_consultations cs st)
          end
        end
    end
  | errs => (invalid errs, st)
  end.

(** ** POST /api/consultations/:id/feedback *)

(** The [$match] stage of the rating aggregation: the consultant's
    consultations with a rating above 0. *)
Definition ratedFor (consultantId : ObjectId) (c : Consultation.t) : bool :=
  (Consultation.consultant c === consultantId)
  && match Consultation.rating c with
     | Some r => 0 <? r
     | None => false
     end.

(** The ratings that reach the [$group] stage. *)
Definition matchedRatings (consultantId : ObjectId)
  (cs : list Consultation.t) : list Z :=
  flat_map (fun c => match Consultation.rating c with
                     | Some r => [r]
                     | None => []
                     end)
    (filter (ratedFor consultantId) cs).

(** The update [updateConsultantRating] hands to [findByIdAndUpdate]:
    the rounded mean under [rating] and the count under [totalRatings]. *)
Definition ratingUpdate (ratings : list Z) : list (string * Value) :=
  let averageRating := avg ratings in
  let totalRatings := Z.of_nat (length ratings) in
  [("rating", VNumber (toFixed1 averageRating));
   ("totalRatings", VNumber (ofZ totalRatings))].

Definition updateConsultantRating (consultantId : ObjectId) (st : Store.t)
  : Store.t :=
  match matchedRatings consultantId (Store.consultations st) with
  | [] => st
  | ratings =>
    Store.set_consultants
      (Consultant.findByIdAndUpdate consultantId (ratingUpdate ratings)
         (Store.consultants st))
      st
  end.

(** The assignments of the route's update block, in their order.
    [rating] and [updatedAt] are paths of the schema; [feedback],
    [feedbackProvided] and [feedbackDate] are not. *)
Definition feedbackUpdate (now : Date) (body : FeedbackBody.t)
  (consultation : Document.t Consultation.t) : Document.t Consultation.t :=
  let consultation :=
    Document.assign (Consultation.set_rating (Some (FeedbackBody.rating body)))
      consultation in
  let consultation :=
    Document.put "feedback" (ofString (FeedbackBody.feedback body))
      consultation in
  let consultation :=
    Document.put "feedbackProvided" (VBool true) consultation in
  let consultation :=
    Document.put "feedbackDate" (VDate now) consultation in
  Document.assign (Consultation.set_updatedAt now) consultation.

Definition post_feedback (now : Date) (user : ReqUser.t) (id : string)
  (body : FeedbackBody.t) (st : Store.t)
  : Response Consultation.t * Store.t :=
  let serverError := fail 500 "Server error while submitting feedback" in
  match feedbackValidation body with
  | [] =>
    match Consultation.findById (Store.options st) id
            (Store.consultations st) with
    | CastError => (serverError, st)
    | NotFound => (fail 404 "Consultation not found", st)
    | Found c =>
      let consultation := Document.load c in
      if Consultation.user c !== ReqUser.userId user
      then
        (fail 403 "Not authorized to provide feedback for this consultation",
         st)
      else if Consultation.status c !== "completed"
      then
        (fail 400 "Feedback can only be provided for completed consultations",
         st)
      else if truthyValue (Document.get "feedbackProvided" consultation)
      then (fail 400 "Feedback already provided for this consultation", st)
      else
        let consultation := feedbackUpdate now body consultation in
        match Consultation.save consultation (Store.consultations st) with
        | None => (serverError, st)
        | Some cs =>
          let st := Store.set_consultations cs st in
          let st :=
            updateConsultantRating
              (Consultation.consultant (Document.paths consultation)) st in
          (ok 200 "Feedback submitted successfully"
             (Consultation.toJSON consultation),
           st)
        end
    end
  | errs => (invalid errs, st)
  end.

(** ** GET /api/consultations/consultant/availability *)

(** The length of a day in milliseconds. *)
Definition day : Z := 86400000.

(** [n.toString().padStart(2, '0')] for a number below 100. *)
Definition twoDigits (n : Z) : string :=
  let digit (k : Z) := ascii_of_nat (48 + Z.to_nat k) in
  String (digit (n / 10)) (String (digit (n mod 10)) "").

(** The two local-time methods of [Date] the route uses; what they
    compute is fixed by the time zone of the server.
    [setHours h m s ms d] is the instant [d.setHours(h, m, s, ms)] moves
    [d] to, and [toTimeString5 d] is [d.toTimeString().slice(0, 5)], the
    local hour and minute. *)
Module LocalTime.
Record t := mk {
  setHours : Z -> Z -> Z -> Z -> Date -> Date;
  toTimeString5 : Date -> string
}.

(** The zone at a fixed offset [tz] from UTC, in milliseconds. *)
Definition fixedOffset (tz : Z) : t :=
  mk (fun h m s ms d =>
        (d + tz) / day * day + h * 3600000 + m * 60000 + s * 1000 + ms - tz)
     (fun d =>
        (twoDigits ((d + tz) mod day / 3600000) ++ ":"
         ++ twoDigits ((d + tz) mod 3600000 / 60000))%string).

Definition utc : t := fixedOffset 0.
End LocalTime.

(** The labels the two loops of [generateAvailableTimeSlots] run
    through: every half hour from 09:00 to 16:30. *)
Definition slotGrid : list string :=
  flat_map (fun hour =>
              map (fun minute =>
                     (twoDigits hour ++ ":" ++ twoDigits minute)%string)
                [0; 30])
    [9; 10; 11; 12; 13; 14; 15; 16].

(** A label is kept unless some booked consultation starts at it. *)
Definition generateAvailableTimeSlots (zone : LocalTime.t)
  (bookedConsultations : list Consultation.t) : list string :=
  filter (fun timeString =>
            negb (existsb (fun consultation =>
                             LocalTime.toTimeString5 zone
                               (Consultation.scheduledDate consultation)
                             === timeString)
                    bookedConsultations))
    slotGrid.

Module Availability.
Record t := mk {
  date : Date;
  availableSlots : list string;
  bookedConsultations : list (Date * Z)
}.
End Availability.

(** The query of the availability route: the consultant's consultations
    that start within the day and are scheduled, confirmed or
    rescheduled. *)
Definition bookedOn (consultantId : ObjectId) (startOfDay endOfDay : Date)
  (c : Consultation.t) : bool :=
  (Consultation.consultant c === consultantId)
  && (startOfDay <=? Consultation.scheduledDate c)
  && (Consultation.scheduledDate c <=? endOfDay)
  && includes ["scheduled"; "confirmed"; "rescheduled"]
       (Consultation.status c).

(** [consultantId] is the query parameter; [date] is [None] when the
    parameter is missing or empty, and otherwise what [new Date] makes of
    it, [Some None] being an invalid date, which the query cannot cast.
    The answer has no message.  [targetDate] is moved by both calls of
    [setHours], the second starting from where the first left it, so the
    date answered is the end of the day. *)
Definition get_availability (zone : LocalTime.t)
  (consultantId : option string) (date : option (option Date))
  (st : Store.t) : Response Availability.t :=
  let serverError := fail 500 "Server error while fetching availability" in
  match date with
  | Some date =>
    if negb (truthy consultantId)
    then fail 400 "Consultant ID and date are required"
    else
      match date, castObjectId (Store.options st) (orDefault consultantId "")
      with
      | Some targetDate, Some consultant =>
        let startOfDay := LocalTime.setHours zone 0 0 0 0 targetDate in
        let endOfDay := LocalTime.setHours zone 23 59 59 999 startOfDay in
        let bookedConsultations :=
          filter (bookedOn consultant startOfDay endOfDay)
            (Store.consultations st) in
        let availableSlots :=
          generateAvailableTimeSlots zone bookedConsultations in
        mkResponse 200 true "" []
          (Some
             (Availability.mk endOfDay availableSlots
                (map (fun c => (Consultation.scheduledDate c,
                                Consultation.duration c))
                   bookedConsultations)))
      | _, _ => serverError
      end
  | None => fail 400 "Consultant ID and date are required"
  end.

(** ** The routes as one transition system *)

Inductive Request :=
| Create (newId : ObjectId) (body : CreateBody.t)
| Reschedule (id : string) (body : RescheduleBody.t)
| UpdateStatus (id : string) (body : StatusBody.t)
| Feedback (id : string) (body : FeedbackBody.t).

Definition handle (now : Date) (user : ReqUser.t) (r : Request)
  (st : Store.t) : Response Consultation.t * Store.t :=
  match r with
  | Create newId body => post_consultations now newId user body st
  | Reschedule id body => put_reschedule now user id body st
  | UpdateStatus id body => put_status now user id body st
  | Feedback id body => post_feedback now user id body st
  end.

(** A consultation with the four paths the routes write, [status],
    [cancellationReason], [rating] and [updatedAt], blanked: what is left
    are its other paths. *)
Definition otherPaths (c : Consultation.t) : Consultation.t :=
  Consultation.set_status ""
    (Consultation.set_cancellationReason None
       (Consultation.set_rating None (Consultation.set_updatedAt 0 c))).

End ConsultationRoutes.

(** * The consultation controller: [rateConsultation]

    The controller loads the same Consultation model as the routes; it
    reads the client under [client] and writes the rating under
    [clientRating], [clientReview] and [ratedAt], none of which is a path
    of the schema. *)
Module ConsultationController.

Module Store.
Record t := mk {
  options : Mongoose.options;
  consultations : list Consultation.t;
  users : list User.t
}.
End Store.

Module RatingBody.
Record t := mk {
  rating : option Z;
  review : option string
}.
End RatingBody.

(** A possibly undefined integer of a request as a value. *)
Definition ofInteger (o : option Z) : Value :=
  match o with
  | Some r => VNumber (ofZ r)
  | None => VUndefined
  end.

(** The [$match] stage of the controller's aggregation: the consultant's
    consultations on which [clientRating] exists. *)
Definition consultantRatings (consultantId : ObjectId)
  (cs : list Consultation.t) : list Consultation.t :=
  filter (fun c => (Consultation.consultant c === consultantId)
                   && Consultation.exists_ "clientRating" c)
    cs.

(** [userId] is [req.user.id].  [consultation.client] is read from the
    loaded document; [toString] of [undefined] throws.  The [$avg] of
    [clientRating] over documents that hold no number under that name is
    [null]. *)
Definition rateConsultation (now : Date) (userId : string) (id : string)
  (body : RatingBody.t) (st : Store.t)
  : Response Consultation.t * Store.t :=
  let serverError := fail 500 "Server error while rating consultation" in
  match Consultation.findById (Store.options st) id
          (Store.consultations st) with
  | CastError => (serverError, st)
  | NotFound => (fail 404 "Consultation not found", st)
  | Found c =>
    let consultation := Document.load c in
    match Document.get "client" consultation with
    | VUndefined => (serverError, st)
    | client =>
      if differsFrom client userId
      then (fail 403 "Not authorized to rate this consultation", st)
      else if Consultation.status c !== "completed"
      then (fail 400 "Can only rate completed consultations", st)
      else
        let consultation :=
          Document.put "clientRating" (ofInteger (RatingBody.rating body))
            consultation in
        let consultation :=
          Document.put "clientReview" (ofString (RatingBody.review body))
            consultation in
        let consultation := Document.put "ratedAt" (VDate now) consultation in
        match Consultation.save consultation (Store.consultations st) with
        | None => (serverError, st)
        | Some cs =>
          let users :=
            match consultantRatings (Consultation.consultant c) cs with
            | [] => Store.users st
            | _ :: _ =>
              User.findByIdAndUpdate (Consultation.consultant c) None
                (Store.users st)
            end in
          (ok 200 "Consultation rated successfully"
             (Consultation.toJSON consultation),
           Store.mk (Store.options st) cs users)
        end
    end
  end.

End ConsultationController.

(** * The course routes: [POST /api/courses/:id/enroll] *)
Module CourseRoutes.

Module Store.
Record t := mk {
  options : Mongoose.options;
  courses : list Course.t;
  enrollments : list Enrollment.t
}.
End Store.

(** The query for an existing enrollment of the user in the course. *)
Definition existingEnrollment (userId courseId : ObjectId)
  (e : Enrollment.t) : bool :=
  (Enrollment.user e === userId)
  && (Enrollment.course e === courseId)
  && includes ["active"; "completed"] (Enrollment.status e).

(** [v + 1] on the value of a property: [undefined + 1] is [NaN]. *)
Definition plusOne (v : Value) : Value :=
  match v with
  | VNumber x => VNumber (SFadd 53 1024 x (ofZ 1))
  | _ => VNumber S754_nan
  end.

(** [newId] is the [_id] the new enrollment is given.  [course.status]
    and [course.enrollmentCount] are read from the loaded document, the
    Course schema having neither path.  In
    [new Enrollment({ user, course, amountPaid, status })] the key
    [amountPaid] is not a path and is dropped; [enrollmentType] has its
    default, paid. *)
Definition post_enroll (newId : ObjectId) (user : ReqUser.t) (id : string)
  (st : Store.t) : Response Enrollment.t * Store.t :=
  let serverError := fail 500 "Server error while enrolling in course" in
  match Course.findById (Store.options st) id (Store.courses st) with
  | CastError => (serverError, st)
  | NotFound => (fail 404 "Course not found", st)
  | Found c =>
    let course := Document.load c in
    if negb (Course.isPublished c)
       || differsFrom (Document.get "status" course) "published"
    then (fail 400 "Course is not available for enrollment", st)
    else
      match castObjectId (Store.options st) (ReqUser.userId user) with
      | None => (serverError, st)
      | Some userId =>
        match find (existingEnrollment userId (Course._id c))
                (Store.enrollments st) with
        | Some _ => (fail 400 "You are already enrolled in this course", st)
        | None =>
          let enrollment :=
            Enrollment.mk newId userId (Course._id c) "paid" "active" None in
          match Enrollment.insert enrollment (Store.enrollments st) with
          | None => (serverError, st)
          | Some es =>
            let st := Store.mk (Store.options st) (Store.courses st) es in
            let course :=
              Document.put "enrollmentCount"
                (plusOne (Document.get "enrollmentCount" course)) course in
            match Course.save course (Store.courses st) with
            | None => (serverError, st)
            | Some cs =>
              (ok 201 "Successfully enrolled in course" enrollment,
               Store.mk (Store.options st) cs es)
            end
          end
        end
      end
  end.

End CourseRoutes.

(** * Statements of the specification

    The specification's own notions, written after its words, to be
    compared with what the handlers compute. *)
Module Spec.
Import ConsultationRoutes.

(** The transition table of the lifecycle manager. *)
Inductive transition : string -> string -> Prop :=
| scheduled_confirmed : transition "scheduled" "confirmed"
| scheduled_cancelled : transition "scheduled" "cancelled"
| confirmed_completed : transition "confirmed" "completed"
| confirmed_cancelled : transition "confirmed" "cancelled"
| confirmed_no_show : transition "confirmed" "no-show"
| rescheduled_confirmed : transition "rescheduled" "confirmed"
| rescheduled_cancelled : transition "rescheduled" "cancelled".

(** The message that names an illegal pair. *)
Definition namesPair (from to : string) : string :=
  ("Cannot change status from " ++ from ++ " to " ++ to)%string.


(** Two half-open intervals [[s1, e1)] and [[s2, e2)] overlap. *)
Definition overlaps (s1 e1 s2 e2 : Date) : bool :=
  (s1 <? e2) && (s2 <? e1).


(** The status update as the specification words it: accepted only on a
    pair of the table; any other pair answered 400 with the message that
    names it, the store unchanged. *)
Definition statusUpdateAsStated (now : Date) (user : ReqUser.t)
  (id : string) (body : StatusBody.t) (st : Store.t) : Prop :=
  forall c,
    Consultation.findById (Store.options st) id (Store.consultations st)
    = Found c ->
    let r := put_status now user id body st in
    (code (fst r) = 200 ->
     transition (Consultation.status c) (StatusBody.status body))
    /\ (~ transition (Consultation.status c) (StatusBody.status body) ->
        code (fst r) = 400
        /\ message (fst r)
           = namesPair (Consultation.status c) (StatusBody.status body)
        /\ snd r = st).


End Spec.

(** * Sample data

    One service of one consultant, a client, an administrator, and the
    instants of the booking scenario (2025-06-01, 10:00, 10:30 and 11:00
    UTC). *)
Module Scenario.
Import ConsultationRoutes.

Definition serviceS : ObjectId := "5f0000000000000000000051".
Definition consultantC : ObjectId := "5f00000000000000000000c1".
Definition clientU : ReqUser.t :=
  ReqUser.mk "5f00000000000000000000a1" "student".
Definition adminA : ReqUser.t :=
  ReqUser.mk "5f00000000000000000000ad" "admin".
Definition consultantK : ReqUser.t := ReqUser.mk consultantC "consultant".

Definition b1 : ObjectId := "5f00000000000000000000b1".
Definition b2 : ObjectId := "5f00000000000000000000b2".
Definition b3 : ObjectId := "5f00000000000000000000b3".

Definition now0 : Date := 1748000000000.
Definition june1_1000 : Date := 1748772000000.
Definition june1_1030 : Date := 1748773800000.
Definition june1_1100 : Date := 1748775600000.
Definition june2_1000 : Date := 1748858400000.
Definition may20 : Date := 1747700000000.

(** A connection that drops undeclared filter conditions and takes
    identifiers of 24 hexadecimal digits only. *)
Definition options : Mongoose.options := Mongoose.mk true false.

Definition services : list Service.t :=
  [Service.mk serviceS true consultantC (150 # 1)].
Definition consultants : list Consultant.t :=
  [Consultant.mk consultantC (Some consultantC) (Some "Consultant C")
     (Some "c@example.com") true "approved" (Some "Architecture") None
     may20].

(** No consultation booked yet. *)
Definition empty (o : Mongoose.options) : Store.t :=
  Store.mk o [] services consultants.

(** A request for 60 minutes of service S with consultant C. *)
Definition request (scheduledDate : Date) (timeSlot : string)
  : CreateBody.t :=
  CreateBody.mk serviceS consultantC (Instant scheduledDate) 60 timeSlot
    None None.

(** A stored consultation of the client with consultant C on 1 June at
    10:00 for 60 minutes, under a given [_id] and in a given status; all
    its paths pass the validators of the schema when the status is one of
    the schema's. *)
Definition consultation (id : ObjectId) (status : string)
  : Consultation.t :=
  Consultation.mk id (ReqUser.userId clientU) consultantC
    (Some "tech-consultancy") (Some "Architecture review")
    (Some "Review of the service architecture") june1_1000 60 status
    None None (Some (150 # 1)) "paid" None None None None None None None
    false false may20 may20.

(** The consultation [b1] in a given status. *)
Definition booking (status : string) : Consultation.t :=
  consultation b1 status.

Definition withBooking (o : Mongoose.options) (status : string) : Store.t :=
  Store.mk o [booking status] services consultants.

(** Three completed consultations of the client with consultant C. *)
Definition threeCompleted (o : Mongoose.options) : Store.t :=
  Store.mk o
    [consultation b1 "completed"; consultation b2 "completed";
     consultation b3 "completed"]
    services consultants.

(** The ratings 5, 4 and 4 given as feedback on the three. *)
Definition threeFeedbacks (o : Mongoose.options) : Store.t :=
  let give id rating st :=
    snd (post_feedback june2_1000 clientU id
           (FeedbackBody.mk rating None) st) in
  give b3 4 (give b2 4 (give b1 5 (threeCompleted o))).

(** The store of the controller with the completed consultation [b1]. *)
Definition controllerStore (o : Mongoose.options)
  : ConsultationController.Store.t :=
  ConsultationController.Store.mk o [consultation b1 "completed"]
    [User.mk consultantC None].

(** The published course X at price 100 with 7 students enrolled, and no
    enrollment stored. *)
Definition courseX : ObjectId := "5f00000000000000000000e1".
Definition e1 : ObjectId := "5f00000000000000000000f1".

Definition courseStore (o : Mongoose.options) : CourseRoutes.Store.t :=
  CourseRoutes.Store.mk o [Course.mk courseX (100 # 1) 7 true] [].

End Scenario.

(** * Properties of the object-document layer *)

Import ConsultationRoutes.

(** A branch whose answer is not the one supposed. *)
Ltac refuted := simpl; let H := fresh in intro H; discriminate H.

(** A branch that answers with an error and the store it was given. *)
Ltac refusal := simpl; repeat split; try discriminate; reflexivity.

Lemma find_none_existsb {A : Type} (p : A -> bool) (l : list A) :
  find p l = None <-> existsb p l = false.
Proof.
  induction l as [|x l IH]; simpl; [tauto|].
  destruct (p x); simpl; [split; discriminate | exact IH].
Qed.

Lemma includes_In (l : list string) (s : string) :
  includes l s = true <-> In s l.
Proof.
  unfold includes. rewrite existsb_exists. split.
  - intros (x & Hin & Hx). apply String.eqb_eq in Hx. now subst x.
  - intros H. exists s. split; [exact H | apply String.eqb_refl].
Qed.

(** A consultation found under an identifier is in the collection, and
    the identifier casts to its [_id]. *)
Lemma findById_Found (o : Mongoose.options) (id : string)
  (cs : list Consultation.t) (c : Consultation.t) :
  Consultation.findById o id cs = Found c ->
  In c cs /\ castObjectId o id = Some (Consultation._id c).
Proof.
  unfold Consultation.findById.
  destruct (castObjectId o id) as [oid|]; [|discriminate].
  destruct (find _ cs) as [x|] eqn:Hf; [|discriminate].
  intros H. injection H as ->. apply find_some in Hf.
  destruct Hf as [Hin Heq]. apply String.eqb_eq in Heq.
  split; [exact Hin | now rewrite Heq].
Qed.

Lemma find_updateDoc (oid : ObjectId) (d : Consultation.t)
  (cs : list Consultation.t) :
  Consultation._id d = oid ->
  find (fun x => Consultation._id x === oid) cs <> None ->
  find (fun x => Consultation._id x === oid) (Consultation.updateDoc d cs)
  = Some d.
Proof.
  intros Hd. induction cs as [|x cs IH]; simpl; [congruence|].
  rewrite Hd. destruct (Consultation._id x === oid) eqn:E; simpl.
  - intros _. now rewrite Hd, String.eqb_refl.
  - rewrite E. exact IH.
Qed.

(** After the save of a document found under an identifier, the
    identifier finds the saved document. *)
Lemma findById_updateDoc (o : Mongoose.options) (id : string)
  (cs : list Consultation.t) (c d : Consultation.t) :
  Consultation.findById o id cs = Found c ->
  Consultation._id d = Consultation._id c ->
  Consultation.findById o id (Consultation.updateDoc d cs) = Found d.
Proof.
  intros Hf Hd. destruct (findById_Found _ _ _ _ Hf) as [_ Hcast].
  revert Hf. unfold Consultation.findById. rewrite Hcast.
  destruct (find _ cs) eqn:E; [|discriminate]. intros _.
  rewrite (find_updateDoc (Consultation._id c) d cs Hd); [reflexivity|].
  congruence.
Qed.

(** A document of the collection after a save is the saved one or was
    there before. *)
Lemma In_updateDoc (d x : Consultation.t) (cs : list Consultation.t) :
  In x (Consultation.updateDoc d cs) -> x = d \/ In x cs.
Proof.
  induction cs as [|y cs IH]; simpl; [tauto|].
  destruct (Consultation._id y === Consultation._id d); simpl.
  - intros [<- | Hin]; [now left | right; now right].
  - intros [<- | Hin]; [right; now left|].
    destruct (IH Hin) as [-> | Hin']; [now left | right; now right].
Qed.

(** A save that does not throw has passed the validators and has written
    the paths of the document. *)
Lemma save_Some (d : Document.t Consultation.t)
  (cs cs' : list Consultation.t) :
  Consultation.save d cs = Some cs' ->
  Consultation.validate (Document.paths d) = []
  /\ cs' = Consultation.updateDoc (Document.paths d) cs.
Proof.
  unfold Consultation.save.
  destruct (Consultation.validate (Document.paths d)); [|discriminate].
  intros H. injection H as <-. split; reflexivity.
Qed.

(** A property assigned under one name leaves the other names as they
    were. *)
Lemma get_put_other {A : Type} (name other : string) (v : Value)
  (d : Document.t A) :
  other <> name ->
  Document.get name (Document.put other v d) = Document.get name d.
Proof.
  intros H. unfold Document.get, Document.put. simpl.
  destruct (other === name) eqn:E; [|reflexivity].
  apply String.eqb_eq in E. contradiction.
Qed.

(** * Properties of the consultation routes *)

(** ** Booking *)

(** The document the create route builds names none of [serviceType],
    [title], [description] and [price], which the schema requires, and so
    fails their validators whatever the request; with the status
    scheduled it fails the enumeration of [status] as well. *)
Lemma validate_newConsultation (now : Date) (newId user consultant : ObjectId)
  (date : Date) (duration : Z) :
  exists rest,
    Consultation.validate
      (newConsultation now newId user consultant date duration "scheduled")
    = "serviceType" :: "title" :: "description" :: rest
    /\ In "status" rest /\ In "price" rest.
Proof.
  unfold Consultation.validate, newConsultation. simpl.
  eexists. split; [reflexivity|].
  split; apply in_or_app; right; simpl; auto.
Qed.

(** Its [save] throws. *)
Lemma insert_newConsultation (now : Date) (newId user consultant : ObjectId)
  (date : Date) (duration : Z) (status : string)
  (cs : list Consultation.t) :
  Consultation.insert
    (newConsultation now newId user consultant date duration status) cs
  = None.
Proof.
  reflexivity.
Qed.

(** No request to the create route is answered 201, and none changes the
    store. *)
Lemma post_consultations_refuses (now : Date) (newId : ObjectId)
  (user : ReqUser.t) (body : CreateBody.t) (st : Store.t) :
  code (fst (post_consultations now newId user body st)) <> 201
  /\ success (fst (post_consultations now newId user body st)) = false
  /\ data (fst (post_consultations now newId user body st)) = None
  /\ snd (post_consultations now newId user body st) = st.
Proof.
  unfold post_consultations.
  destruct (consultationValidation body); [|refusal].
  destruct (castObjectId _ (CreateBody.service body)); [|refusal].
  destruct (find _ (Store.services st)); [|refusal].
  destruct (castObjectId _ (CreateBody.consultant body)); [|refusal].
  destruct (find _ (Store.consultants st)); [|refusal].
  destruct (_ !== _); [refusal|].
  destruct (new_Date _); [|refusal].
  destruct (_ <=? now); [refusal|].
  destruct (find _ (Store.consultations st)); [refusal|].
  destruct (castObjectId _ (ReqUser.userId user)); [|refusal].
  rewrite insert_newConsultation. refusal.
Qed.

(** A request that passes every check of the route is answered 500. *)
Lemma post_consultations_throws (now : Date) (newId : ObjectId)
  (user : ReqUser.t) (body : CreateBody.t) (st : Store.t)
  (date : Date) (service consultant : ObjectId)
  (serviceDoc : Service.t) (consultantDoc : Consultant.t) :
  consultationValidation body = [] ->
  CreateBody.scheduledDate body = Instant date ->
  castObjectId (Store.options st) (CreateBody.service body) = Some service ->
  find (fun s => (Service._id s === service) && Service.isActive s)
    (Store.services st) = Some serviceDoc ->
  castObjectId (Store.options st) (CreateBody.consultant body)
  = Some consultant ->
  find (fun k => (Consultant._id k === consultant) && Consultant.isActive k)
    (Store.consultants st) = Some consultantDoc ->
  Consultant._id consultantDoc = Service.consultant serviceDoc ->
  now < date ->
  find (createConflict (Store.options st) consultant date
          (CreateBody.timeSlot body))
    (Store.consultations st) = None ->
  post_consultations now newId user body st
  = (fail 500 "Server error while booking consultation", st).
Proof.
  intros Hv Hd Hs Hsd Hk Hkd Hoff Hfut Hconf. unfold post_consultations.
  rewrite Hv, Hd, Hs, Hsd, Hk, Hkd, Hoff, String.eqb_refl. simpl negb.
  cbv iota. simpl new_Date. cbv iota. apply Z.leb_gt in Hfut.
  rewrite Hfut, Hconf.
  destruct (castObjectId _ (ReqUser.userId user)); reflexivity.
Qed.

(** ** Rescheduling *)

(** On a document as a query returns it, the update block of the
    reschedule route throws: no property [rescheduleHistory] is there
    for [push]. *)
Lemma rescheduleUpdate_load (now : Date) (user : ReqUser.t) (newDate : Date)
  (timeSlot : string) (reason : option string) (c : Consultation.t) :
  rescheduleUpdate now user newDate timeSlot reason (Document.load c) = None.
Proof.
  reflexivity.
Qed.

(** Were an array found under [rescheduleHistory], the entry pushed
    would carry the new date as [previousDate]: [scheduledDate] is
    assigned before the entry reads it. *)
Lemma rescheduleUpdate_previousDate (now : Date) (user : ReqUser.t)
  (newDate : Date) (timeSlot : string) (reason : option string)
  (d : Document.t Consultation.t) (entries : list Value) :
  Document.get "rescheduleHistory" d = VArray entries ->
  exists d',
    rescheduleUpdate now user newDate timeSlot reason d = Some d'
    /\ Document.get "rescheduleHistory" d'
       = VArray
           (entries
            ++ [VObject
                  [("previousDate", VDate newDate);
                   ("newDate", VDate newDate);
                   ("reason", VString (orDefault reason "No reason provided"));
                   ("rescheduledBy", VString (ReqUser.userId user));
                   ("rescheduledAt", VDate now)]])
    /\ Consultation.status (Document.paths d') = "rescheduled".
Proof.
  intros H. unfold rescheduleUpdate.
  assert (E : Document.get "rescheduleHistory"
                (Document.assign (Consultation.set_status "rescheduled")
                   (Document.put "timeSlot" (VString timeSlot)
                      (Document.assign (Consultation.set_scheduledDate newDate)
                         d)))
              = VArray entries) by exact H.
  rewrite E. eexists. split; [reflexivity|]. split; reflexivity.
Qed.

(** No request to the reschedule route is answered 200, and none
    changes the store. *)
Lemma put_reschedule_refuses (now : Date) (user : ReqUser.t) (id : string)
  (body : RescheduleBody.t) (st : Store.t) :
  code (fst (put_reschedule now user id body st)) <> 200
  /\ success (fst (put_reschedule now user id body st)) = false
  /\ snd (put_reschedule now user id body st) = st.
Proof.
  unfold put_reschedule.
  destruct (rescheduleValidation body); [|refusal].
  destruct (Consultation.findById _ id _); [refusal | refusal |].
  destruct (_ && _); [refusal|].
  destruct (negb (includes _ _)); [refusal|].
  destruct (new_Date _); [|refusal].
  destruct (_ <=? now); [refusal|].
  destruct (find _ _); [refusal|].
  rewrite rescheduleUpdate_load. refusal.
Qed.

(** ** Status updates *)

(** The validation chain of the status route passes a request whose
    target is one of the four statuses of [isIn] and whose cancellation
    reason, when there is one, has at most 500 characters. *)
Lemma statusValidation_nil (body : StatusBody.t) :
  statusValidation body = [] <->
  In (StatusBody.status body)
    ["confirmed"; "cancelled"; "completed"; "no-show"]
  /\ forall reason,
       StatusBody.cancellationReason body = Some reason ->
       (String.length reason <= 500)%nat.
Proof.
  unfold statusValidation, rule, optionalMaxLength. split.
  - destruct (includes _ (StatusBody.status body)) eqn:E; [|discriminate].
    simpl. intros H. split.
    + unfold includes in E. apply existsb_exists in E.
      destruct E as (x & Hin & Hx). apply String.eqb_eq in Hx. now subst x.
    + intros reason Hr. rewrite Hr in H.
      destruct (Z.of_nat (String.length reason) <=? 500) eqn:L;
        [|discriminate].
      apply Z.leb_le in L. lia.
  - intros [Hin Hlen].
    assert (E : includes ["confirmed"; "cancelled"; "completed"; "no-show"]
                  (StatusBody.status body) = true).
    { unfold includes. apply existsb_exists.
      exists (StatusBody.status body). split; [exact Hin|].
      apply String.eqb_refl. }
    rewrite E. simpl.
    destruct (StatusBody.cancellationReason body) as [reason|];
      [|reflexivity].
    specialize (Hlen reason eq_refl).
    assert (L : (Z.of_nat (String.length reason) <=? 500) = true)
      by (apply Z.leb_le; lia).
    now rewrite L.
Qed.

Lemma statusValidation_passes (body : StatusBody.t) :
  statusValidation body = [] ->
  In (StatusBody.status body)
    ["confirmed"; "cancelled"; "completed"; "no-show"].
Proof.
  intros H. now apply statusValidation_nil in H.
Qed.

Lemma statusValidation_fails (body : StatusBody.t) :
  ~ In (StatusBody.status body)
      ["confirmed"; "cancelled"; "completed"; "no-show"] ->
  statusValidation body <> [].
Proof.
  intros H Hv. apply H. now apply statusValidation_passes.
Qed.

(** The own properties of [validTransitions] hold the table of the
    specification. *)
Lemma transitionAllowed_transition (from to : string) :
  transitionAllowed from to = Some true <-> Spec.transition from to.
Proof.
  unfold transitionAllowed, validTransitions. split.
  - intros H.
    repeat match type of H with
           | context [if ?a === ?b then _ else _] =>
               let E := fresh "E" in
               destruct (a === b) eqn:E;
               [apply String.eqb_eq in E; subst from|]
           end;
      try (destruct (includes objectPrototypeKeys from); discriminate H);
      simpl in H;
      repeat match type of H with
             | context [to === ?b] =>
                 let E := fresh "E" in
                 destruct (to === b) eqn:E;
                 [apply String.eqb_eq in E; subst to; constructor|]
             end;
      simpl in H; discriminate H.
  - intros H. destruct H; reflexivity.
Qed.

(** Under a status that is not a name inherited from [Object.prototype]
    the lookup does not throw. *)
Lemma transitionAllowed_own (from to : string) :
  ~ In from objectPrototypeKeys ->
  transitionAllowed from to <> None.
Proof.
  intros H. unfold transitionAllowed, validTransitions.
  repeat match goal with
         | |- context [if ?a === ?b then _ else _] => destruct (a === b)
         end; try discriminate.
  destruct (includes objectPrototypeKeys from) eqn:E; [|discriminate].
  exfalso. apply H. unfold includes in E. apply existsb_exists in E.
  destruct E as (x & Hin & Hx). apply String.eqb_eq in Hx. now subst x.
Qed.

(** The paths of the document after the update block of the status
    route: the status and [updatedAt] are written, and the cancellation
    reason when the target is cancelled and a reason is given; every
    other path is as it was. *)
Lemma statusUpdate_paths (now : Date) (user : ReqUser.t) (status : string)
  (reason : option string) (c : Consultation.t) :
  Document.paths (statusUpdate now user status reason (Document.load c))
  = let c' :=
      Consultation.set_updatedAt now (Consultation.set_status status c) in
    if (status === "cancelled") && truthy reason
    then Consultation.set_cancellationReason reason c'
    else c'.
Proof.
  unfold statusUpdate.
  destruct ((status === "cancelled") && truthy reason);
    destruct (status === "completed"); reflexivity.
Qed.

(** The actor and the two instants are assigned as properties of the
    object in memory. *)
Lemma statusUpdate_props (now : Date) (user : ReqUser.t) (status : string)
  (reason : option string) (c : Consultation.t) :
  Document.props (statusUpdate now user status reason (Document.load c))
  = (if status === "completed" then [("completedAt", VDate now)] else [])
    ++ (if (status === "cancelled") && truthy reason
        then [("cancelledAt", VDate now);
              ("cancelledBy", VString (ReqUser.userId user))]
        else []).
Proof.
  unfold statusUpdate.
  destruct ((status === "cancelled") && truthy reason);
    destruct (status === "completed"); reflexivity.
Qed.

Lemma statusUpdate_status (now : Date) (user : ReqUser.t) (status : string)
  (reason : option string) (c : Consultation.t) :
  Consultation.status
    (Document.paths (statusUpdate now user status reason (Document.load c)))
  = status
  /\ Consultation._id
       (Document.paths (statusUpdate now user status reason (Document.load c)))
     = Consultation._id c.
Proof.
  rewrite statusUpdate_paths. cbv zeta.
  destruct ((status === "cancelled") && truthy reason); split; reflexivity.
Qed.

Lemma put_status_rejected (now : Date) (user : ReqUser.t) (id : string)
  (body : StatusBody.t) (st : Store.t) :
  code (fst (put_status now user id body st)) <> 200 ->
  success (fst (put_status now user id body st)) = false
  /\ snd (put_status now user id body st) = st.
Proof.
  unfold put_status.
  destruct (statusValidation body); [|now split].
  destruct (Consultation.findById _ id _); [now split | now split |].
  destruct (negb (isAuthorized _ _ _)); [now split|].
  destruct (transitionAllowed _ _) as [[|]|]; [|now split | now split].
  destruct (Consultation.save _ _); [|now split].
  simpl. congruence.
Qed.

(** What an accepted status update has checked and what it returns. *)
Lemma put_status_accepted (now : Date) (user : ReqUser.t) (id : string)
  (body : StatusBody.t) (st : Store.t) :
  code (fst (put_status now user id body st)) = 200 ->
  exists c,
    statusValidation body = []
    /\ Consultation.findById (Store.options st) id (Store.consultations st)
       = Found c
    /\ isAuthorized user c (StatusBody.status body) = true
    /\ transitionAllowed (Consultation.status c) (StatusBody.status body)
       = Some true
    /\ Consultation.validate
         (Document.paths
            (statusUpdate now user (StatusBody.status body)
               (StatusBody.cancellationReason body) (Document.load c)))
       = []
    /\ put_status now user id body st
       = (let d := statusUpdate now user (StatusBody.status body)
                     (StatusBody.cancellationReason body)
                     (Document.load c) in
          (ok 200
             ("Consultation " ++ StatusBody.status body ++ " successfully")%string
             (Document.paths d),
           Store.set_consultations
             (Consultation.updateDoc (Document.paths d)
                (Store.consultations st))
             st)).
Proof.
  unfold put_status.
  destruct (statusValidation body) eqn:Hv; [|refuted].
  destruct (Consultation.findById _ id _) as [| |c] eqn:Hc;
    [refuted | refuted |].
  destruct (negb (isAuthorized _ _ _)) eqn:Hauth; [refuted|].
  destruct (transitionAllowed _ _) as [[|]|] eqn:Htr;
    [|refuted | refuted].
  destruct (Consultation.save _ _) as [cs|] eqn:Hsave; [|refuted].
  intros _. exists c. apply save_Some in Hsave. destruct Hsave as [Hval ->].
  apply negb_false_iff in Hauth. repeat split; auto.
Qed.

(** ** Feedback *)

(** Both keys of the rating update are dropped: the Consultant schema
    has no path [rating] and no path [totalRatings]. *)
Lemma strict_ratingUpdate (ratings : list Z) :
  strict Consultant.paths (ratingUpdate ratings) = [].
Proof.
  reflexivity.
Qed.

Lemma findByIdAndUpdate_ratingUpdate (id : ObjectId) (ratings : list Z)
  (ks : list Consultant.t) :
  Consultant.findByIdAndUpdate id (ratingUpdate ratings) ks = ks.
Proof.
  induction ks as [|k ks IH]; simpl; [reflexivity|].
  destruct (Consultant._id k === id); [reflexivity|].
  now rewrite IH.
Qed.

(** The rating helper changes nothing in the store. *)
Lemma updateConsultantRating_id (consultantId : ObjectId) (st : Store.t) :
  updateConsultantRating consultantId st = st.
Proof.
  unfold updateConsultantRating.
  destruct (matchedRatings consultantId (Store.consultations st));
    [reflexivity|].
  rewrite findByIdAndUpdate_ratingUpdate. now destruct st.
Qed.

Lemma post_feedback_rejected (now : Date) (user : ReqUser.t) (id : string)
  (body : FeedbackBody.t) (st : Store.t) :
  code (fst (post_feedback now user id body st)) <> 200 ->
  success (fst (post_feedback now user id body st)) = false
  /\ snd (post_feedback now user id body st) = st.
Proof.
  unfold post_feedback.
  destruct (feedbackValidation body); [|now split].
  destruct (Consultation.findById _ id _); [now split | now split |].
  destruct (_ !== ReqUser.userId user); [now split|].
  destruct (_ !== "completed"); [now split|].
  simpl truthyValue. cbv iota.
  destruct (Consultation.save _ _); [|now split].
  simpl. congruence.
Qed.

(** What an accepted feedback has checked and what it returns. *)
Lemma post_feedback_accepted (now : Date) (user : ReqUser.t) (id : string)
  (body : FeedbackBody.t) (st : Store.t) :
  code (fst (post_feedback now user id body st)) = 200 ->
  exists c,
    feedbackValidation body = []
    /\ Consultation.findById (Store.options st) id (Store.consultations st)
       = Found c
    /\ Consultation.user c = ReqUser.userId user
    /\ Consultation.status c = "completed"
    /\ Consultation.validate
         (Consultation.set_updatedAt now
            (Consultation.set_rating (Some (FeedbackBody.rating body)) c))
       = []
    /\ post_feedback now user id body st
       = (let c' :=
            Consultation.set_updatedAt now
              (Consultation.set_rating (Some (FeedbackBody.rating body)) c) in
          (ok 200 "Feedback submitted successfully" c',
           Store.set_consultations
             (Consultation.updateDoc c' (Store.consultations st)) st)).
Proof.
  unfold post_feedback.
  destruct (feedbackValidation body) eqn:Hv; [|refuted].
  destruct (Consultation.findById _ id _) as [| |c] eqn:Hc;
    [refuted | refuted |].
  destruct (_ !== ReqUser.userId user) eqn:Hu; [refuted|].
  destruct (_ !== "completed") eqn:Hs; [refuted|].
  simpl truthyValue. cbv iota.
  destruct (Consultation.save _ _) as [cs|] eqn:Hsave; [|refuted].
  intros _. exists c. apply save_Some in Hsave. destruct Hsave as [Hval ->].
  apply negb_false_iff, String.eqb_eq in Hu, Hs.
  rewrite updateConsultantRating_id. repeat split; auto.
Qed.

(** A feedback is accepted whenever the client of a completed
    consultation whose paths are valid sends a rating between 1 and 5,
    whatever feedback was given on the consultation before. *)
Lemma post_feedback_accepts (now : Date) (user : ReqUser.t) (id : string)
  (body : FeedbackBody.t) (st : Store.t) (c : Consultation.t) :
  feedbackValidation body = [] ->
  Consultation.findById (Store.options st) id (Store.consultations st)
  = Found c ->
  Consultation.user c = ReqUser.userId user ->
  Consultation.status c = "completed" ->
  Consultation.validate
    (Consultation.set_updatedAt now
       (Consultation.set_rating (Some (FeedbackBody.rating body)) c)) = [] ->
  code (fst (post_feedback now user id body st)) = 200.
Proof.
  intros Hv Hc Hu Hs Hval. unfold post_feedback.
  rewrite Hv, Hc, Hu, Hs, !String.eqb_refl. simpl negb. cbv iota.
  simpl truthyValue. cbv iota.
  unfold Consultation.save, feedbackUpdate. simpl Document.paths.
  rewrite Hval. reflexivity.
Qed.

(** The validators pass a document whose rating is replaced by one
    between 1 and 5, if they passed it before. *)
Lemma validate_set_rating (now : Date) (r : Z) (c : Consultation.t) :
  Consultation.validate c = [] ->
  1 <= r <= 5 ->
  Consultation.validate
    (Consultation.set_updatedAt now (Consultation.set_rating (Some r) c))
  = [].
Proof.
  unfold Consultation.validate. destruct c; simpl. intros H Hr.
  repeat (apply app_eq_nil in H; destruct H as [?H H]).
  repeat match goal with
         | Hx : rule _ _ = [] |- _ => rewrite Hx; clear Hx
         end.
  simpl.
  replace ((1 <=? r) && (r <=? 5)) with true; [reflexivity|].
  symmetry. apply andb_true_iff. split; apply Z.leb_le; lia.
Qed.

Lemma feedbackValidation_rating (body : FeedbackBody.t) :
  feedbackValidation body = [] -> 1 <= FeedbackBody.rating body <= 5.
Proof.
  unfold feedbackValidation, rule.
  destruct ((1 <=? FeedbackBody.rating body)
            && (FeedbackBody.rating body <=? 5)) eqn:E; [|discriminate].
  intros _. apply andb_true_iff in E. destruct E as [E1 E2].
  apply Z.leb_le in E1, E2. lia.
Qed.

(** After an accepted feedback, a further feedback of the same client on
    the same consultation is accepted again: the property
    [feedbackProvided] was assigned on the object in memory and is not
    on the document the next request loads. *)
Lemma post_feedback_again (now now' : Date) (user : ReqUser.t)
  (id : string) (body body' : FeedbackBody.t) (st : Store.t) :
  code (fst (post_feedback now user id body st)) = 200 ->
  feedbackValidation body' = [] ->
  code (fst (post_feedback now' user id body'
               (snd (post_feedback now user id body st)))) = 200.
Proof.
  intros H Hv'. apply post_feedback_accepted in H.
  destruct H as (c & Hv & Hc & Hu & Hs & Hval & ->). cbv zeta. simpl snd.
  set (c' := Consultation.set_updatedAt now
               (Consultation.set_rating (Some (FeedbackBody.rating body)) c))
    in *.
  apply (post_feedback_accepts now' user id body' _ c').
  - exact Hv'.
  - simpl. apply (findById_updateDoc _ id _ c c' Hc). reflexivity.
  - exact Hu.
  - exact Hs.
  - apply validate_set_rating; [exact Hval|].
    now apply feedbackValidation_rating.
Qed.

(** * Properties of the consultation controller *)

(** [rateConsultation] answers no request with 200 and changes nothing:
    when the consultation is found, reading [client] yields [undefined]
    and [toString] throws. *)
Lemma rateConsultation_throws (now : Date) (userId id : string)
  (body : ConsultationController.RatingBody.t)
  (st : ConsultationController.Store.t) :
  code (fst (ConsultationController.rateConsultation now userId id body st))
  <> 200
  /\ snd (ConsultationController.rateConsultation now userId id body st) = st
  /\ forall c,
       Consultation.findById (ConsultationController.Store.options st) id
         (ConsultationController.Store.consultations st) = Found c ->
       fst (ConsultationController.rateConsultation now userId id body st)
       = fail 500 "Server error while rating consultation".
Proof.
  unfold ConsultationController.rateConsultation.
  destruct (Consultation.findById _ id _);
    (split; [simpl; discriminate|]); (split; [reflexivity|]);
    intros c H; try discriminate H; reflexivity.
Qed.

(** * Properties of the course routes *)

(** For a course that is found, the enrollment route answers 400: the
    Course schema has no path [status], so [course.status] is
    [undefined] and differs from published. *)
Lemma post_enroll_found (newId : ObjectId) (user : ReqUser.t) (id : string)
  (st : CourseRoutes.Store.t) (c : Course.t) :
  Course.findById (CourseRoutes.Store.options st) id
    (CourseRoutes.Store.courses st) = Found c ->
  CourseRoutes.post_enroll newId user id st
  = (fail 400 "Course is not available for enrollment", st).
Proof.
  intros H. unfold CourseRoutes.post_enroll. rewrite H.
  simpl differsFrom. now rewrite orb_true_r.
Qed.

(** No request to the enrollment route is answered 201, and none
    changes the store. *)
Lemma post_enroll_refuses (newId : ObjectId) (user : ReqUser.t)
  (id : string) (st : CourseRoutes.Store.t) :
  code (fst (CourseRoutes.post_enroll newId user id st)) <> 201
  /\ success (fst (CourseRoutes.post_enroll newId user id st)) = false
  /\ snd (CourseRoutes.post_enroll newId user id st) = st.
Proof.
  destruct (Course.findById (CourseRoutes.Store.options st) id
              (CourseRoutes.Store.courses st)) as [| |c] eqn:H.
  - unfold CourseRoutes.post_enroll. rewrite H. refusal.
  - unfold CourseRoutes.post_enroll. rewrite H. refusal.
  - rewrite (post_enroll_found newId user id st c H). refusal.
Qed.

(** * The consultation routes against the specification *)

(** ** Booking *)

(** The conflict query of the create route matches a stored consultation
    on the same start instant only, and only on a connection that drops
    its condition on [timeSlot]: the request for the 10:00 slot of a
    confirmed consultation is then answered with the conflict message;
    otherwise the query matches nothing and the request goes on to the
    save that throws. *)
Lemma create_conflict_on_equal_start :
  fst (post_consultations Scenario.now0 Scenario.b2 Scenario.clientU
         (Scenario.request Scenario.june1_1000 "10:00")
         (Scenario.withBooking (Mongoose.mk true false) "confirmed"))
  = fail 400
      "Consultant is not available at this time. Please choose another time slot."
  /\ fst (post_consultations Scenario.now0 Scenario.b2 Scenario.clientU
            (Scenario.request Scenario.june1_1000 "10:00")
            (Scenario.withBooking (Mongoose.mk false false) "confirmed"))
     = fail 500 "Server error while booking consultation".
Proof.
  split; reflexivity.
Qed.

(** The create route looks the consultant up by [isActive] alone and
    does not read [approvalStatus]: the request for an active consultant
    whose approval was rejected passes the lookup, and is answered the
    500 of the save rather than the 404 of the lookup. *)
Lemma create_reads_isActive_only (o : Mongoose.options) :
  fst (post_consultations Scenario.now0 Scenario.b1 Scenario.clientU
         (Scenario.request Scenario.june1_1000 "10:00")
         (Store.mk o [] Scenario.services
            [Consultant.mk Scenario.consultantC None None None true
               "rejected" None None Scenario.may20]))
  = fail 500 "Server error while booking consultation".
Proof.
  destruct o as [[|] [|]]; reflexivity.
Qed.

(** C1. The scenario of the specification on the create route, whatever
    the options of the connection: the 60-minute booking of consultant C
    at 10:00 on an empty calendar is answered 500 and stores nothing, and
    so are the bookings at 10:30 and 11:00 that follow.  Against a stored
    confirmed consultation of C at 10:00, whose interval the 10:30
    request overlaps and which the model's [hasTimeConflict] reports, the
    10:30 request is answered with the same 500 and not with the conflict
    message. *)
Theorem booking_scenario_refused (o : Mongoose.options) :
  let first :=
    post_consultations Scenario.now0 Scenario.b1 Scenario.clientU
      (Scenario.request Scenario.june1_1000 "10:00") (Scenario.empty o) in
  let second :=
    post_consultations Scenario.now0 Scenario.b2 Scenario.clientU
      (Scenario.request Scenario.june1_1030 "10:30") (snd first) in
  let third :=
    post_consultations Scenario.now0 Scenario.b3 Scenario.clientU
      (Scenario.request Scenario.june1_1100 "11:00") (snd second) in
  let overlapping :=
    post_consultations Scenario.now0 Scenario.b2 Scenario.clientU
      (Scenario.request Scenario.june1_1030 "10:30")
      (Scenario.withBooking o "confirmed") in
  fst first = fail 500 "Server error while booking consultation"
  /\ fst second = fail 500 "Server error while booking consultation"
  /\ fst third = fail 500 "Server error while booking consultation"
  /\ Store.consultations (snd third) = []
  /\ fst overlapping = fail 500 "Server error while booking consultation"
  /\ Spec.overlaps Scenario.june1_1000
       (Consultation.endTime (Scenario.booking "confirmed"))
       Scenario.june1_1030 (Scenario.june1_1030 + 60 * 60000) = true
  /\ Consultation.hasTimeConflict
       (newConsultation Scenario.now0 Scenario.b2
          (ReqUser.userId Scenario.clientU) Scenario.consultantC
          Scenario.june1_1030 60 "pending")
       [Scenario.booking "confirmed"] = true.
Proof.
  destruct o as [[|] [|]]; vm_compute; repeat split.
Qed.

(** C8. The create route answers no request with 201 and persists no
    booking: the store it returns is the store it was given.  The
    document it builds fails the validators of [serviceType], [title],
    [description], [price] and [status] whatever the request, so [save]
    throws; a request that meets every condition of the contract, the
    first booking of the scenario, is answered 500. *)
Theorem create_never_persists :
  (forall now newId user body st,
      let r := post_consultations now newId user body st in
      code (fst r) <> 201
      /\ success (fst r) = false
      /\ data (fst r) = None
      /\ snd r = st)
  /\ (forall now newId userId consultant date duration,
         exists rest,
           Consultation.validate
             (newConsultation now newId userId consultant date duration
                "scheduled")
           = "serviceType" :: "title" :: "description" :: rest
           /\ In "status" rest /\ In "price" rest)
  /\ (forall o,
         post_consultations Scenario.now0 Scenario.b1 Scenario.clientU
           (Scenario.request Scenario.june1_1000 "10:00") (Scenario.empty o)
         = (fail 500 "Server error while booking consultation",
            Scenario.empty o)).
Proof.
  split; [|split].
  - intros now newId user body st. apply post_consultations_refuses.
  - apply validate_newConsultation.
  - intros o. destruct o as [[|] [|]]; reflexivity.
Qed.

(** ** Rescheduling *)

(** C3. The reschedule route answers no request with 200 and changes no
    consultation: the update block calls [push] on
    [consultation.rescheduleHistory], which no loaded document has.  The
    client's request to move the confirmed 10:00 consultation of 1 June
    to 2 June is answered 500, and the consultation is stored as it
    was, with no entry and in status confirmed. *)
Theorem reschedule_never_appends :
  (forall now user id body st,
      let r := put_reschedule now user id body st in
      code (fst r) <> 200 /\ success (fst r) = false /\ snd r = st)
  /\ (forall o,
         put_reschedule Scenario.now0 Scenario.clientU Scenario.b1
           (RescheduleBody.mk (Instant Scenario.june2_1000) "10:00" None)
           (Scenario.withBooking o "confirmed")
         = (fail 500 "Server error while rescheduling consultation",
            Scenario.withBooking o "confirmed")).
Proof.
  split.
  - intros now user id body st. apply put_reschedule_refuses.
  - intros o. destruct o as [[|] [|]]; reflexivity.
Qed.





(** ** Status updates *)

(** C2, as the route decides it.  A status update is accepted only on a
    pair of the transition table.  A pair outside the table is refused
    and the store is returned as it was; the refusal is a 400 whose
    message names the pair when the request passes validation (a target
    among confirmed, cancelled, completed and no-show, a cancellation
    reason of at most 500 characters), the requester is authorized for
    the target and the stored status is not a name inherited from
    [Object.prototype]; a 400 "Validation failed" when the request does
    not pass validation; and a 403 when a valid request comes from a
    requester not authorized for the target. *)
Theorem status_update_respects_table (now : Date) (user : ReqUser.t)
  (id : string) (body : StatusBody.t) (st : Store.t) (c : Consultation.t) :
  Consultation.findById (Store.options st) id (Store.consultations st)
  = Found c ->
  let r := put_status now user id body st in
  let valid :=
    In (StatusBody.status body)
      ["confirmed"; "cancelled"; "completed"; "no-show"]
    /\ forall reason,
         StatusBody.cancellationReason body = Some reason ->
         (String.length reason <= 500)%nat in
  (code (fst r) = 200 ->
   Spec.transition (Consultation.status c) (StatusBody.status body))
  /\ (~ Spec.transition (Consultation.status c) (StatusBody.status body) ->
      success (fst r) = false
      /\ snd r = st
      /\ (valid ->
          isAuthorized user c (StatusBody.status body) = true ->
          ~ In (Consultation.status c) objectPrototypeKeys ->
          code (fst r) = 400
          /\ message (fst r)
             = Spec.namesPair (Consultation.status c) (StatusBody.status body))
      /\ (~ valid ->
          code (fst r) = 400 /\ message (fst r) = "Validation failed")
      /\ (valid ->
          isAuthorized user c (StatusBody.status body) = false ->
          code (fst r) = 403)).
Proof.
  intros Hc r valid.
  assert (Hacc : code (fst r) = 200 ->
                 Spec.transition (Consultation.status c)
                   (StatusBody.status body)).
  { intros H. apply put_status_accepted in H.
    destruct H as (c0 & _ & Hc0 & _ & Htr & _).
    rewrite Hc in Hc0. injection Hc0 as <-.
    now apply transitionAllowed_transition. }
  split; [exact Hacc|].
  intros Hno.
  assert (Hrej : code (fst r) <> 200) by (intros H; apply Hno, Hacc, H).
  destruct (put_status_rejected now user id body st Hrej) as [Hs Hst].
  split; [exact Hs|]. split; [exact Hst|].
  subst r. unfold put_status. rewrite Hc.
  split; [|split].
  - intros Hv Hauth Hown. apply statusValidation_nil in Hv.
    rewrite Hv, Hauth. simpl negb. cbv iota.
    destruct (transitionAllowed _ _) as [[|]|] eqn:Htr.
    + exfalso. now apply Hno, transitionAllowed_transition.
    + split; reflexivity.
    + exfalso. now apply (transitionAllowed_own _ _ Hown) in Htr.
  - intros Hv. destruct (statusValidation body) eqn:E.
    + exfalso. now apply Hv, statusValidation_nil.
    + split; reflexivity.
  - intros Hv Hauth. apply statusValidation_nil in Hv.
    rewrite Hv, Hauth. reflexivity.
Qed.

(** The consultant asks to complete a pending consultation that was
    never confirmed: the pair is not in the table and the answer names
    it. *)
Lemma status_update_respects_table_witness :
  success (fst (put_status Scenario.now0 Scenario.consultantK Scenario.b1
                  (StatusBody.mk "completed" None)
                  (Scenario.withBooking Scenario.options "pending"))) = false
  /\ message (fst (put_status Scenario.now0 Scenario.consultantK Scenario.b1
                     (StatusBody.mk "completed" None)
                     (Scenario.withBooking Scenario.options "pending")))
     = "Cannot change status from pending to completed".
Proof.
  destruct (status_update_respects_table Scenario.now0 Scenario.consultantK
              Scenario.b1 (StatusBody.mk "completed" None)
              (Scenario.withBooking Scenario.options "pending")
              (Scenario.booking "pending") eq_refl) as [_ H].
  destruct H as (Hs & _ & Hm & _).
  - intros T. inversion T.
  - split; [exact Hs|]. apply Hm.
    + split.
      * simpl. auto.
      * intros reason Hr. discriminate Hr.
    + reflexivity.
    + simpl. intros H. repeat destruct H as [H|H]; try discriminate H.
      exact H.
Defined.

(** C2 as worded fails where an earlier gate refuses the request.  An
    administrator asks to set a confirmed consultation to rescheduled:
    the pair is not in the table, and the answer is the 400 of the
    validation, whose message is "Validation failed" and names no pair.
    The client asks to complete a pending consultation: the pair is not
    in the table, and the answer is the 403 of the authorization. *)
Lemma status_validation_names_no_pair :
  ~ Spec.statusUpdateAsStated Scenario.now0 Scenario.adminA Scenario.b1
      (StatusBody.mk "rescheduled" None)
      (Scenario.withBooking Scenario.options "confirmed")
  /\ ~ Spec.statusUpdateAsStated Scenario.now0 Scenario.clientU Scenario.b1
         (StatusBody.mk "completed" None)
         (Scenario.withBooking Scenario.options "pending").
Proof.
  split; intros H.
  - destruct (H (Scenario.booking "confirmed") eq_refl) as [_ H2].
    destruct H2 as (_ & Hm & _); [intros T; inversion T|].
    vm_compute in Hm. discriminate Hm.
  - destruct (H (Scenario.booking "pending") eq_refl) as [_ H2].
    destruct H2 as (Hcode & _); [intros T; inversion T|].
    vm_compute in Hcode. discriminate Hcode.
Qed.

(** C9.  What an accepted status update stores: the consultation it
    found with the requested status, the clock reading as [updatedAt]
    and, when the target is cancelled and a reason is given, the reason;
    every other path is as it was, and the answer carries the same
    document.  The acting user and the instants of cancellation and
    completion are assigned as properties of the object in memory under
    names the schema does not declare; no path of the stored document
    holds them. *)
Theorem status_update_stores_paths_only (now : Date) (user : ReqUser.t)
  (id : string) (body : StatusBody.t) (st : Store.t) :
  let r := put_status now user id body st in
  let status := StatusBody.status body in
  let reason := StatusBody.cancellationReason body in
  code (fst r) = 200 ->
  exists c stored,
    Consultation.findById (Store.options st) id (Store.consultations st)
    = Found c
    /\ stored
       = (let c' :=
            Consultation.set_updatedAt now (Consultation.set_status status c)
          in
          if (status === "cancelled") && truthy reason
          then Consultation.set_cancellationReason reason c'
          else c')
    /\ Consultation.findById (Store.options st) id
         (Store.consultations (snd r)) = Found stored
    /\ data (fst r) = Some stored
    /\ Document.props (statusUpdate now user status reason (Document.load c))
       = (if status === "completed" then [("completedAt", VDate now)]
          else [])
         ++ (if (status === "cancelled") && truthy reason
             then [("cancelledAt", VDate now);
                   ("cancelledBy", VString (ReqUser.userId user))]
             else [])
    /\ ~ In "cancelledBy" Consultation.paths
    /\ ~ In "cancelledAt" Consultation.paths
    /\ ~ In "completedAt" Consultation.paths.
Proof.
  intros r status reason H. subst r. apply put_status_accepted in H.
  destruct H as (c & _ & Hc & _ & _ & _ & ->). cbv zeta.
  fold status. fold reason.
  destruct (statusUpdate_status now user status reason c) as [_ Hi].
  rewrite statusUpdate_paths in *. cbv zeta in *.
  eexists c, _. simpl fst. simpl snd. simpl data.
  split; [exact Hc|]. split; [reflexivity|].
  split; [apply (findById_updateDoc _ id _ c _ Hc); exact Hi|].
  split; [reflexivity|].
  split; [apply statusUpdate_props|].
  repeat split; simpl; intros K;
    repeat destruct K as [K|K]; try discriminate K; exact K.
Qed.

(** The client cancels the confirmed consultation and says why: the
    reason is stored, with the status and [updatedAt], and nothing
    else. *)
Lemma status_update_stores_paths_only_witness :
  exists c stored,
    Consultation.findById Scenario.options Scenario.b1
      [Scenario.booking "confirmed"] = Found c
    /\ stored
       = Consultation.set_cancellationReason (Some "Travelling that day")
           (Consultation.set_updatedAt Scenario.now0
              (Consultation.set_status "cancelled" c))
    /\ data (fst (put_status Scenario.now0 Scenario.clientU Scenario.b1
                    (StatusBody.mk "cancelled" (Some "Travelling that day"))
                    (Scenario.withBooking Scenario.options "confirmed")))
       = Some stored.
Proof.
  destruct (status_update_stores_paths_only Scenario.now0 Scenario.clientU
              Scenario.b1
              (StatusBody.mk "cancelled" (Some "Travelling that day"))
              (Scenario.withBooking Scenario.options "confirmed") eq_refl)
    as (c & stored & Hc & Hs & _ & Hd & _).
  exists c, stored. split; [exact Hc|]. split; [exact Hs | exact Hd].
Defined.

(** ** Feedback *)

(** C5.  After an accepted feedback, every further valid feedback of the
    same client on the same consultation is accepted again.  On the
    scenario the client rates the completed consultation with 5 and then
    with 1: both requests are answered 200 and the second rating
    replaces the first.  The controller's [rateConsultation] answers
    the same client's rating of that consultation with 500. *)
Theorem feedback_accepted_twice :
  (forall now now' user id body body' st,
      code (fst (post_feedback now user id body st)) = 200 ->
      feedbackValidation body' = [] ->
      code (fst (post_feedback now' user id body'
                   (snd (post_feedback now user id body st)))) = 200)
  /\ (forall o,
         let first :=
           post_feedback Scenario.june2_1000 Scenario.clientU Scenario.b1
             (FeedbackBody.mk 5 (Some "Very helpful"))
             (Scenario.withBooking o "completed") in
         let second :=
           post_feedback (Scenario.june2_1000 + 1000) Scenario.clientU
             Scenario.b1 (FeedbackBody.mk 1 None) (snd first) in
         code (fst first) = 200
         /\ map Consultation.rating (Store.consultations (snd first))
            = [Some 5]
         /\ code (fst second) = 200
         /\ message (fst second) = "Feedback submitted successfully"
         /\ map Consultation.rating (Store.consultations (snd second))
            = [Some 1]
         /\ fst (ConsultationController.rateConsultation Scenario.june2_1000
                   (ReqUser.userId Scenario.clientU) Scenario.b1
                   (ConsultationController.RatingBody.mk (Some 5)
                      (Some "Very helpful"))
                   (Scenario.controllerStore o))
            = fail 500 "Server error while rating consultation").
Proof.
  split.
  - intros now now' user id body body' st. apply post_feedback_again.
  - intros o. destruct o as [[|] [|]]; vm_compute; repeat split.
Qed.

(** The client rates the completed consultation with 5, then with 1. *)
Lemma feedback_accepted_twice_witness :
  code (fst (post_feedback (Scenario.june2_1000 + 1000) Scenario.clientU
               Scenario.b1 (FeedbackBody.mk 1 None)
               (snd (post_feedback Scenario.june2_1000 Scenario.clientU
                       Scenario.b1 (FeedbackBody.mk 5 (Some "Very helpful"))
                       (Scenario.withBooking Scenario.options "completed")))))
  = 200.
Proof.
  apply (proj1 feedback_accepted_twice); reflexivity.
Defined.

(** C6.  The rating helper leaves the store as it was: both keys of its
    update, [rating] and [totalRatings], are dropped, the Consultant
    schema having neither path.  So no request to the feedback route
    changes a consultant, and none to [rateConsultation] changes
    anything.  After the ratings 5, 4 and 4 given as feedback on three
    consultations of consultant C, the helper has computed the mean
    rounded to 4.3 and the count 3, and the consultants are stored as
    they were. *)
Theorem rating_aggregate_not_stored :
  (forall consultantId st, updateConsultantRating consultantId st = st)
  /\ (forall now user id body st,
         Store.consultants (snd (post_feedback now user id body st))
         = Store.consultants st)
  /\ (forall now userId id body st,
         snd (ConsultationController.rateConsultation now userId id body st)
         = st)
  /\ (forall o,
         matchedRatings Scenario.consultantC
           (Store.consultations (Scenario.threeFeedbacks o)) = [5; 4; 4]
         /\ Store.consultants (Scenario.threeFeedbacks o)
            = Scenario.consultants)
  /\ ratingUpdate [5; 4; 4]
     = [("rating", VNumber (SFdiv 53 1024 (ofZ 43) (ofZ 10)));
        ("totalRatings", VNumber (ofZ 3))]
  /\ strict Consultant.paths (ratingUpdate [5; 4; 4]) = [].
Proof.
  split; [|split; [|split; [|split; [|split]]]].
  - apply updateConsultantRating_id.
  - intros now user id body st.
    destruct (Z.eq_dec (code (fst (post_feedback now user id body st))) 200)
      as [Hacc|Hrej].
    + apply post_feedback_accepted in Hacc.
      destruct Hacc as (c & _ & _ & _ & _ & _ & ->). reflexivity.
    + apply post_feedback_rejected in Hrej. destruct Hrej as [_ ->].
      reflexivity.
  - intros now userId id body st.
    apply (rateConsultation_throws now userId id body st).
  - intros o. destruct o as [[|] [|]]; vm_compute; split; reflexivity.
  - vm_compute. reflexivity.
  - reflexivity.
Qed.

(** ** The targets of the status route *)

(** C10. The status route accepts no target but confirmed, cancelled,
    completed and no-show, and answers any other with the 400 of the
    validation and the store as it was; after a status request every
    stored consultation has the status it had or one of those four, so
    none is moved to scheduled or pending; and a stored consultation is
    in status rescheduled after a create, status or feedback request only
    if a consultation of that identifier was in it before. *)
Theorem status_route_targets (now : Date) (user : ReqUser.t) :
  (forall id body st,
      code (fst (put_status now user id body st)) = 200 ->
      In (StatusBody.status body)
        ["confirmed"; "cancelled"; "completed"; "no-show"])
  /\ (forall id body st,
         ~ In (StatusBody.status body)
             ["confirmed"; "cancelled"; "completed"; "no-show"] ->
         code (fst (put_status now user id body st)) = 400
         /\ message (fst (put_status now user id body st))
            = "Validation failed"
         /\ snd (put_status now user id body st) = st)
  /\ (forall id body st c',
         In c' (Store.consultations (snd (put_status now user id body st))) ->
         exists c,
           In c (Store.consultations st)
           /\ Consultation._id c = Consultation._id c'
           /\ (Consultation.status c' = Consultation.status c
               \/ In (Consultation.status c')
                    ["confirmed"; "cancelled"; "completed"; "no-show"]))
  /\ (forall req st c',
         (forall id body, req <> Reschedule id body) ->
         In c' (Store.consultations (snd (handle now user req st))) ->
         Consultation.status c' = "rescheduled" ->
         exists c,
           In c (Store.consultations st)
           /\ Consultation._id c = Consultation._id c'
           /\ Consultation.status c = "rescheduled").
Proof.
  assert (Hfour : ~ In "rescheduled"
                      ["confirmed"; "cancelled"; "completed"; "no-show"]).
  { simpl. intros [H|[H|[H|[H|[]]]]]; discriminate H. }
  assert (Hstatus : forall id body st c',
             In c' (Store.consultations (snd (put_status now user id body st))) ->
             exists c,
               In c (Store.consultations st)
               /\ Consultation._id c = Consultation._id c'
               /\ (Consultation.status c' = Consultation.status c
                   \/ In (Consultation.status c')
                        ["confirmed"; "cancelled"; "completed"; "no-show"])).
  { intros id body st c' Hin.
    destruct (Z.eq_dec (code (fst (put_status now user id body st))) 200)
      as [Hacc|Hrej].
    - apply put_status_accepted in Hacc.
      destruct Hacc as (c & Hv & Hc & _ & _ & _ & Heq).
      rewrite Heq in Hin. simpl in Hin.
      destruct (statusUpdate_status now user (StatusBody.status body)
                  (StatusBody.cancellationReason body) c) as [Hs Hi].
      destruct (findById_Found _ _ _ _ Hc) as [Hcin _].
      apply In_updateDoc in Hin. destruct Hin as [-> | Hin].
      + exists c. split; [exact Hcin|]. split; [now rewrite Hi|].
        right. rewrite Hs. now apply statusValidation_passes.
      + exists c'. auto.
    - apply put_status_rejected in Hrej. destruct Hrej as [_ Hst].
      rewrite Hst in Hin. exists c'. auto. }
  split; [|split; [|split]].
  - intros id body st H. apply put_status_accepted in H.
    destruct H as (c & Hv & _). now apply statusValidation_passes.
  - intros id body st H. apply statusValidation_fails in H.
    unfold put_status. destruct (statusValidation body); [congruence|].
    repeat split.
  - exact Hstatus.
  - intros req st c' Hreq Hin Hres. destruct req as [newId b|id b|id b|id b].
    + simpl in Hin.
      destruct (post_consultations_refuses now newId user b st)
        as (_ & _ & _ & Hst).
      rewrite Hst in Hin. exists c'. auto.
    + exfalso. now apply (Hreq id b).
    + simpl in Hin. destruct (Hstatus id b st c' Hin) as (c & Hc & Hi & Hs).
      exists c. split; [exact Hc|]. split; [exact Hi|].
      destruct Hs as [Hs|Hs]; [congruence|].
      rewrite Hres in Hs. contradiction.
    + simpl in Hin.
      destruct (Z.eq_dec (code (fst (post_feedback now user id b st))) 200)
        as [Hacc|Hrej].
      * apply post_feedback_accepted in Hacc.
        destruct Hacc as (c & _ & Hc & _ & Hs & _ & Heq).
        rewrite Heq in Hin. cbv zeta in Hin. simpl in Hin.
        apply In_updateDoc in Hin. destruct Hin as [-> | Hin].
        -- simpl in Hres. congruence.
        -- exists c'. auto.
      * apply post_feedback_rejected in Hrej. destruct Hrej as [_ Hst].
        rewrite Hst in Hin. exists c'. auto.
Qed.

(** The consultant completes the confirmed consultation: the request is
    accepted and its target is one of the four. *)
Lemma status_route_targets_witness :
  code (fst (put_status Scenario.now0 Scenario.consultantK Scenario.b1
               (StatusBody.mk "completed" None)
               (Scenario.withBooking Scenario.options "confirmed"))) = 200
  /\ In "completed" ["confirmed"; "cancelled"; "completed"; "no-show"].
Proof.
  split; [reflexivity|].
  apply (proj1 (status_route_targets Scenario.now0 Scenario.consultantK)
           Scenario.b1 (StatusBody.mk "completed" None)
           (Scenario.withBooking Scenario.options "confirmed")).
  reflexivity.
Defined.

(** * The course routes against the specification *)

(** C7.  The enrollment route answers no request with 201 and changes
    neither the enrollments nor the courses: for a course that is found
    it answers 400, [course.status] being a property no loaded course
    has.  The enrollment of the client in the published course X is
    answered "Course is not available for enrollment", and no
    enrollment is stored. *)
Theorem enroll_never_enrolls :
  (forall newId user id st,
      let r := CourseRoutes.post_enroll newId user id st in
      code (fst r) <> 201 /\ success (fst r) = false /\ snd r = st)
  /\ (forall o,
         Course.isPublished (Course.mk Scenario.courseX (100 # 1) 7 true)
         = true
         /\ CourseRoutes.post_enroll Scenario.e1 Scenario.clientU
              Scenario.courseX (Scenario.courseStore o)
            = (fail 400 "Course is not available for enrollment",
               Scenario.courseStore o)).
Proof.
  split.
  - intros newId user id st. apply post_enroll_refuses.
  - intros o. split; [reflexivity|].
    destruct o as [[|] [|]]; reflexivity.
Qed.

(** * Further properties of the consultation routes *)

(** ** What the stored consultations keep *)

(** A document that passes the validators has a status of the schema's
    enumeration. *)
Lemma validate_status (c : Consultation.t) :
  Consultation.validate c = [] ->
  In (Consultation.status c) Consultation.statuses.
Proof.
  unfold Consultation.validate. intros H.
  repeat (apply app_eq_nil in H; destruct H as [?H H]).
  match goal with
  | Hx : rule (includes Consultation.statuses _) _ = [] |- _ =>
      unfold rule in Hx;
      destruct (includes Consultation.statuses (Consultation.status c)) eqn:E;
      [now apply includes_In in E | discriminate Hx]
  end.
Qed.

Lemma map_updateDoc {B : Type} (f : Consultation.t -> B) (oid : ObjectId)
  (c d : Consultation.t) (cs : list Consultation.t) :
  find (fun x => Consultation._id x === oid) cs = Some c ->
  Consultation._id d = oid ->
  f d = f c ->
  map f (Consultation.updateDoc d cs) = map f cs.
Proof.
  intros Hf Hd Hfd. induction cs as [|x cs IH]; simpl in *; [reflexivity|].
  rewrite Hd. destruct (Consultation._id x === oid) eqn:E; simpl.
  - injection Hf as ->. now rewrite Hfd.
  - now rewrite IH.
Qed.

Lemma findById_find (o : Mongoose.options) (id : string)
  (cs : list Consultation.t) (c : Consultation.t) :
  Consultation.findById o id cs = Found c ->
  find (fun x => Consultation._id x === Consultation._id c) cs = Some c.
Proof.
  intros H. destruct (findById_Found _ _ _ _ H) as [_ Hcast].
  revert H. unfold Consultation.findById. rewrite Hcast.
  destruct (find _ cs); [|discriminate]. intros H. now injection H as ->.
Qed.

(** X1.  Whatever the request to the four routes, the connection, the
    services and the consultants are returned as they were, and so are the
    consultations as to their number, their order, their identifiers and
    every path but [status], [cancellationReason], [rating] and
    [updatedAt]: no request adds or removes a consultation or changes its
    client, consultant, date, duration or price. *)
Theorem handle_keeps_collections (now : Date) (user : ReqUser.t)
  (req : Request) (st : Store.t) :
  let st' := snd (handle now user req st) in
  Store.options st' = Store.options st
  /\ Store.services st' = Store.services st
  /\ Store.consultants st' = Store.consultants st
  /\ map otherPaths (Store.consultations st')
     = map otherPaths (Store.consultations st).
Proof.
  destruct req as [newId b|id b|id b|id b]; simpl.
  - destruct (post_consultations_refuses now newId user b st)
      as (_ & _ & _ & ->). repeat split.
  - destruct (put_reschedule_refuses now user id b st) as (_ & _ & ->).
    repeat split.
  - destruct (Z.eq_dec (code (fst (put_status now user id b st))) 200)
      as [Hacc|Hrej].
    + apply put_status_accepted in Hacc.
      destruct Hacc as (c & _ & Hc & _ & _ & _ & ->). simpl.
      repeat split.
      apply (map_updateDoc otherPaths (Consultation._id c) c).
      * now apply (findById_find (Store.options st) id).
      * apply statusUpdate_status.
      * rewrite statusUpdate_paths. cbv zeta.
        destruct (_ && _); reflexivity.
    + apply put_status_rejected in Hrej. destruct Hrej as [_ ->].
      repeat split.
  - destruct (Z.eq_dec (code (fst (post_feedback now user id b st))) 200)
      as [Hacc|Hrej].
    + apply post_feedback_accepted in Hacc.
      destruct Hacc as (c & _ & Hc & _ & _ & _ & ->). simpl.
      repeat split.
      apply (map_updateDoc otherPaths (Consultation._id c) c).
      * now apply (findById_find (Store.options st) id).
      * reflexivity.
      * reflexivity.
    + apply post_feedback_rejected in Hrej. destruct Hrej as [_ ->].
      repeat split.
Qed.

(** X2.  If every stored consultation passes the validators of the
    schema, so does every stored consultation after any request to the
    four routes; its status is then one of pending, confirmed, completed,
    cancelled and rescheduled, and never scheduled or no-show. *)
Theorem stored_consultations_stay_valid (now : Date) (user : ReqUser.t)
  (req : Request) (st : Store.t) :
  (forall c, In c (Store.consultations st) -> Consultation.validate c = []) ->
  forall c,
    In c (Store.consultations (snd (handle now user req st))) ->
    Consultation.validate c = []
    /\ In (Consultation.status c)
         ["pending"; "confirmed"; "completed"; "cancelled"; "rescheduled"]
    /\ Consultation.status c <> "scheduled"
    /\ Consultation.status c <> "no-show".
Proof.
  intros Hall c Hin.
  assert (Hval : Consultation.validate c = []).
  { destruct req as [newId b|id b|id b|id b]; simpl in Hin.
    - destruct (post_consultations_refuses now newId user b st)
        as (_ & _ & _ & Hst).
      rewrite Hst in Hin. now apply Hall.
    - destruct (put_reschedule_refuses now user id b st) as (_ & _ & Hst).
      rewrite Hst in Hin. now apply Hall.
    - destruct (Z.eq_dec (code (fst (put_status now user id b st))) 200)
        as [Hacc|Hrej].
      + apply put_status_accepted in Hacc.
        destruct Hacc as (c0 & _ & _ & _ & _ & Hv & Heq).
        rewrite Heq in Hin. simpl in Hin. apply In_updateDoc in Hin.
        destruct Hin as [-> | Hin]; [exact Hv | now apply Hall].
      + apply put_status_rejected in Hrej. destruct Hrej as [_ Hst].
        rewrite Hst in Hin. now apply Hall.
    - destruct (Z.eq_dec (code (fst (post_feedback now user id b st))) 200)
        as [Hacc|Hrej].
      + apply post_feedback_accepted in Hacc.
        destruct Hacc as (c0 & _ & _ & _ & _ & Hv & Heq).
        rewrite Heq in Hin. simpl in Hin. apply In_updateDoc in Hin.
        destruct Hin as [-> | Hin]; [exact Hv | now apply Hall].
      + apply post_feedback_rejected in Hrej. destruct Hrej as [_ Hst].
        rewrite Hst in Hin. now apply Hall. }
  split; [exact Hval|].
  pose proof (validate_status c Hval) as Hs.
  split; [exact Hs|].
  split; intros E; rewrite E in Hs; simpl in Hs;
    repeat destruct Hs as [Hs|Hs]; try discriminate Hs; exact Hs.
Qed.

(** The consultant completes the confirmed consultation of a valid
    store: what is stored passes the validators. *)
Lemma stored_consultations_stay_valid_witness :
  Forall (fun c => Consultation.validate c = [])
    (Store.consultations
       (snd (handle Scenario.now0 Scenario.consultantK
               (UpdateStatus Scenario.b1 (StatusBody.mk "completed" None))
               (Scenario.withBooking Scenario.options "confirmed")))).
Proof.
  apply Forall_forall. intros c Hin.
  apply (stored_consultations_stay_valid Scenario.now0 Scenario.consultantK
           (UpdateStatus Scenario.b1 (StatusBody.mk "completed" None))
           (Scenario.withBooking Scenario.options "confirmed")); [|exact Hin].
  intros x [<- | []]. reflexivity.
Defined.

(** ** The target no-show *)

(** X3.  A status request for no-show is never answered 200 and never
    changes the store, although the transition table has
    confirmed -> no-show: the schema's enumeration of [status] has no
    such value and [save] throws.  The consultant's request to mark a
    confirmed consultation as a no-show is answered 500. *)
Theorem no_show_is_never_stored (now : Date) (user : ReqUser.t)
  (id : string) (body : StatusBody.t) (st : Store.t) :
  StatusBody.status body = "no-show" ->
  let r := put_status now user id body st in
  code (fst r) <> 200
  /\ snd r = st
  /\ forall c,
       Consultation.findById (Store.options st) id (Store.consultations st)
       = Found c ->
       (forall reason,
           StatusBody.cancellationReason body = Some reason ->
           (String.length reason <= 500)%nat) ->
       Consultation.consultant c = ReqUser.userId user ->
       Consultation.status c = "confirmed" ->
       fst r = fail 500 "Server error while updating consultation status".
Proof.
  intros Hs r.
  assert (Hrej : code (fst r) <> 200).
  { intros Hacc. apply put_status_accepted in Hacc.
    destruct Hacc as (c & _ & _ & _ & _ & Hv & _).
    apply validate_status in Hv.
    rewrite (proj1 (statusUpdate_status _ _ _ _ _)), Hs in Hv.
    simpl in Hv. repeat destruct Hv as [Hv|Hv]; try discriminate Hv.
    exact Hv. }
  split; [exact Hrej|].
  split; [now apply put_status_rejected|].
  intros c Hc Hlen Hk Hst.
  assert (Hv : statusValidation body = []).
  { apply statusValidation_nil. split; [|exact Hlen].
    rewrite Hs. simpl. auto. }
  assert (Hsave : Consultation.save
                    (statusUpdate now user "no-show"
                       (StatusBody.cancellationReason body) (Document.load c))
                    (Store.consultations st) = None).
  { destruct (Consultation.save _ _) eqn:E; [|reflexivity].
    apply save_Some in E. destruct E as [E _]. apply validate_status in E.
    rewrite (proj1 (statusUpdate_status _ _ _ _ _)) in E.
    simpl in E. repeat destruct E as [E|E]; try discriminate E.
    contradiction. }
  subst r. unfold put_status, isAuthorized, transitionAllowed.
  rewrite Hv, Hc, Hs, Hk, Hst, String.eqb_refl. simpl.
  rewrite Hsave. reflexivity.
Qed.

(** The consultant reports that the client did not show up. *)
Lemma no_show_is_never_stored_witness :
  fst (put_status Scenario.now0 Scenario.consultantK Scenario.b1
         (StatusBody.mk "no-show" None)
         (Scenario.withBooking Scenario.options "confirmed"))
  = fail 500 "Server error while updating consultation status".
Proof.
  apply (proj2 (proj2 (no_show_is_never_stored Scenario.now0
                         Scenario.consultantK Scenario.b1
                         (StatusBody.mk "no-show" None)
                         (Scenario.withBooking Scenario.options "confirmed")
                         eq_refl))
           (Scenario.booking "confirmed")).
  - reflexivity.
  - intros reason H. discriminate H.
  - reflexivity.
  - reflexivity.
Defined.

(** ** Who may change a status *)

(** An administrator passes the authorization cascade for every
    target. *)
Lemma isAuthorized_admin (user : ReqUser.t) (c : Consultation.t)
  (status : string) :
  ReqUser.role user = "admin" -> isAuthorized user c status = true.
Proof.
  intros H. unfold isAuthorized. rewrite H. simpl.
  repeat match goal with
         | |- (if ?b then _ else _) = _ => destruct b; try reflexivity
         end.
  now rewrite !orb_true_r.
Qed.

(** X4.  An accepted status update comes from the consultant of the
    consultation or from an administrator, unless it is a cancellation,
    which the client may ask for as well: a requester who is neither the
    consultant nor an administrator can cancel a consultation of their
    own and change nothing else; an administrator passes the
    authorization for every target. *)
Theorem status_update_requesters (now : Date) (user : ReqUser.t)
  (id : string) (body : StatusBody.t) (st : Store.t) (c : Consultation.t) :
  Consultation.findById (Store.options st) id (Store.consultations st)
  = Found c ->
  (code (fst (put_status now user id body st)) = 200 ->
   Consultation.consultant c = ReqUser.userId user
   \/ ReqUser.role user = "admin"
   \/ (StatusBody.status body = "cancelled"
       /\ Consultation.user c = ReqUser.userId user))
  /\ (ReqUser.role user = "admin" ->
      code (fst (put_status now user id body st)) <> 403).
Proof.
  intros Hc. split.
  - intros H. apply put_status_accepted in H.
    destruct H as (c0 & _ & Hc0 & Hauth & _).
    rewrite Hc in Hc0. injection Hc0 as <-.
    unfold isAuthorized in Hauth.
    destruct (Consultation.consultant c === ReqUser.userId user) eqn:Ek;
      [left; now apply String.eqb_eq|].
    destruct (ReqUser.role user === "admin") eqn:Ea;
      [right; left; now apply String.eqb_eq|].
    right. right. rewrite !andb_false_r in Hauth.
    destruct (StatusBody.status body === "cancelled") eqn:Es;
      [|discriminate Hauth].
    rewrite !orb_false_r in Hauth.
    split; now apply String.eqb_eq.
  - intros Hadmin. unfold put_status. rewrite Hc.
    destruct (statusValidation body); [|refuted].
    rewrite (isAuthorized_admin user c _ Hadmin). simpl negb. cbv iota.
    destruct (transitionAllowed _ _) as [[|]|]; [|refuted | refuted].
    destruct (Consultation.save _ _); refuted.
Qed.

(** The client cancels the confirmed consultation. *)
Lemma status_update_requesters_witness :
  Consultation.consultant (Scenario.booking "confirmed")
  = ReqUser.userId Scenario.clientU
  \/ ReqUser.role Scenario.clientU = "admin"
  \/ ("cancelled" = "cancelled"
      /\ Consultation.user (Scenario.booking "confirmed")
         = ReqUser.userId Scenario.clientU).
Proof.
  apply (proj1 (status_update_requesters Scenario.now0 Scenario.clientU
                  Scenario.b1 (StatusBody.mk "cancelled" None)
                  (Scenario.withBooking Scenario.options "confirmed")
                  (Scenario.booking "confirmed") eq_refl)).
  reflexivity.
Defined.

(** ** What a feedback stores *)

(** X5.  An accepted feedback comes from the client of a completed
    consultation and stores a rating between 1 and 5 and the clock
    reading as [updatedAt]; every other path of the consultation is as it
    was, and the answer carries the stored document: the text of the
    feedback is in neither. *)
Theorem feedback_stores_rating_only (now : Date) (user : ReqUser.t)
  (id : string) (body : FeedbackBody.t) (st : Store.t) :
  let r := post_feedback now user id body st in
  code (fst r) = 200 ->
  exists c stored,
    Consultation.findById (Store.options st) id (Store.consultations st)
    = Found c
    /\ Consultation.user c = ReqUser.userId user
    /\ Consultation.status c = "completed"
    /\ 1 <= FeedbackBody.rating body <= 5
    /\ stored
       = Consultation.set_updatedAt now
           (Consultation.set_rating (Some (FeedbackBody.rating body)) c)
    /\ Consultation.findById (Store.options st) id
         (Store.consultations (snd r)) = Found stored
    /\ data (fst r) = Some stored
    /\ ~ In "feedback" Consultation.paths
    /\ ~ In "feedbackProvided" Consultation.paths
    /\ ~ In "feedbackDate" Consultation.paths.
Proof.
  intros r H. subst r. apply post_feedback_accepted in H.
  destruct H as (c & Hv & Hc & Hu & Hs & _ & ->). cbv zeta.
  eexists c, _. simpl fst. simpl snd. simpl data.
  split; [exact Hc|]. split; [exact Hu|]. split; [exact Hs|].
  split; [now apply feedbackValidation_rating|].
  split; [reflexivity|].
  split; [apply (findById_updateDoc _ id _ c _ Hc); reflexivity|].
  split; [reflexivity|].
  repeat split; simpl; intros K;
    repeat destruct K as [K|K]; try discriminate K; exact K.
Qed.

(** The client rates the completed consultation with 5 and a text. *)
Lemma feedback_stores_rating_only_witness :
  exists stored,
    data (fst (post_feedback Scenario.june2_1000 Scenario.clientU Scenario.b1
                 (FeedbackBody.mk 5 (Some "Very helpful"))
                 (Scenario.withBooking Scenario.options "completed")))
    = Some stored
    /\ Consultation.rating stored = Some 5.
Proof.
  destruct (feedback_stores_rating_only Scenario.june2_1000 Scenario.clientU
              Scenario.b1 (FeedbackBody.mk 5 (Some "Very helpful"))
              (Scenario.withBooking Scenario.options "completed") eq_refl)
    as (c & stored & _ & _ & _ & _ & Hs & _ & Hd & _).
  exists stored. split; [exact Hd|]. rewrite Hs. reflexivity.
Defined.

(** * Properties of the Consultation model *)

(** X6.  When the stored consultations all last as long as this one,
    [hasTimeConflict] answers true exactly when another confirmed or
    pending consultation of the same consultant overlaps this one's
    interval from [scheduledDate] to [endTime].  The query measures the
    other consultation's length by this one's duration. *)
Theorem hasTimeConflict_equal_durations (this : Consultation.t)
  (cs : list Consultation.t) :
  (forall c, In c cs -> Consultation.duration c = Consultation.duration this) ->
  Consultation.hasTimeConflict this cs = true <->
  exists c,
    In c cs
    /\ Consultation.consultant c = Consultation.consultant this
    /\ In (Consultation.status c) ["confirmed"; "pending"]
    /\ Consultation._id c <> Consultation._id this
    /\ Consultation.scheduledDate c < Consultation.endTime this
    /\ Consultation.scheduledDate this < Consultation.endTime c.
Proof.
  intros Hd. unfold Consultation.hasTimeConflict. split.
  - destruct (find _ cs) as [c|] eqn:Hf; [|discriminate]. intros _.
    apply find_some in Hf. destruct Hf as [Hin Hc].
    unfold Consultation.timeConflict in Hc.
    repeat (apply andb_true_iff in Hc; destruct Hc as [Hc ?]).
    exists c. split; [exact Hin|].
    split; [now apply String.eqb_eq|].
    split; [now apply includes_In|].
    split; [apply String.eqb_neq; now apply negb_true_iff|].
    split; [now apply Z.ltb_lt|].
    unfold Consultation.endTime. rewrite (Hd c Hin).
    match goal with H : (_ - _ <? _) = true |- _ => apply Z.ltb_lt in H end.
    lia.
  - intros (c & Hin & Hk & Hs & Hi & H1 & H2).
    destruct (find _ cs) eqn:Hf; [reflexivity|]. exfalso.
    pose proof (find_none _ _ Hf c Hin) as Hn.
    unfold Consultation.timeConflict in Hn.
    unfold Consultation.endTime in H2. rewrite (Hd c Hin) in H2.
    rewrite Hk, String.eqb_refl in Hn.
    apply Z.ltb_lt in H1. rewrite H1 in Hn.
    apply includes_In in Hs. rewrite Hs in Hn.
    apply String.eqb_neq in Hi. rewrite Hi in Hn.
    assert (E : (Consultation.scheduledDate this
                 - Consultation.duration this * 60000
                 <? Consultation.scheduledDate c) = true)
      by (apply Z.ltb_lt; lia).
    rewrite E in Hn. discriminate Hn.
Qed.

(** A pending consultation of 60 minutes at 10:30 against the confirmed
    one of 60 minutes at 10:00. *)
Lemma hasTimeConflict_equal_durations_witness :
  Consultation.hasTimeConflict
    (Consultation.set_scheduledDate Scenario.june1_1030
       (Scenario.consultation Scenario.b2 "pending"))
    [Scenario.booking "confirmed"] = true.
Proof.
  apply (hasTimeConflict_equal_durations
           (Consultation.set_scheduledDate Scenario.june1_1030
              (Scenario.consultation Scenario.b2 "pending"))
           [Scenario.booking "confirmed"]).
  - intros c [<-|[]]. reflexivity.
  - exists (Scenario.booking "confirmed"). simpl.
    repeat split; auto; try discriminate; vm_compute; reflexivity.
Defined.

(** ** When a status update is accepted *)

(** The validators pass a document whose status is replaced by one of
    the enumeration, whose [updatedAt] is set and whose cancellation
    reason is replaced, if they passed it before. *)
Lemma validate_statusUpdate (now : Date) (user : ReqUser.t)
  (status : string) (reason : option string) (c : Consultation.t) :
  Consultation.validate c = [] ->
  In status Consultation.statuses ->
  Consultation.validate
    (Document.paths (statusUpdate now user status reason (Document.load c)))
  = [].
Proof.
  intros H Hs. rewrite statusUpdate_paths. cbv zeta.
  apply includes_In in Hs.
  assert (Hgen : forall reason',
             Consultation.validate
               (Consultation.set_cancellationReason reason'
                  (Consultation.set_updatedAt now
                     (Consultation.set_status status c))) = []
             /\ Consultation.validate
                  (Consultation.set_updatedAt now
                     (Consultation.set_status status c)) = []).
  { intros reason'. unfold Consultation.validate in *.
    destruct c; cbn [Consultation.set_cancellationReason
                       Consultation.set_updatedAt Consultation.set_status
                       Consultation.serviceType Consultation.title
                       Consultation.description Consultation.duration
                       Consultation.status Consultation.price
                       Consultation.paymentStatus Consultation.rating
                       Consultation.review] in *.
    repeat (apply app_eq_nil in H; destruct H as [?H H]).
    rewrite Hs.
    repeat match goal with
           | Hx : rule _ _ = [] |- _ => rewrite Hx; clear Hx
           end.
    split; reflexivity. }
  destruct (Hgen reason) as [H1 H2].
  destruct (_ && _); assumption.
Qed.

(** X7.  A status update is accepted, and the requested status stored,
    whenever the consultation is found and passes the validators, the
    request passes validation, the requester is authorized for the
    target, and the requested status is among the targets the
    transition table gives for the current one and is not no-show; the clock
    reading plays no part, so a confirmed consultation can be cancelled
    up to and after its scheduled date. *)
Theorem status_update_accepts (now : Date) (user : ReqUser.t) (id : string)
  (body : StatusBody.t) (st : Store.t) (c : Consultation.t) :
  Consultation.findById (Store.options st) id (Store.consultations st)
  = Found c ->
  Consultation.validate c = [] ->
  (forall reason,
      StatusBody.cancellationReason body = Some reason ->
      (String.length reason <= 500)%nat) ->
  isAuthorized user c (StatusBody.status body) = true ->
  transitionAllowed (Consultation.status c) (StatusBody.status body)
  = Some true ->
  StatusBody.status body <> "no-show" ->
  let r := put_status now user id body st in
  code (fst r) = 200
  /\ exists stored,
       Consultation.findById (Store.options st) id
         (Store.consultations (snd r)) = Found stored
       /\ Consultation.status stored = StatusBody.status body.
Proof.
  intros Hc Hval Hlen Hauth Htr Hns r.
  pose proof (proj1 (transitionAllowed_transition _ _) Htr) as Hsp.
  assert (Hin : In (StatusBody.status body)
                  ["confirmed"; "cancelled"; "completed"]).
  { revert Hsp Hns. generalize (Consultation.status c) (StatusBody.status body).
    intros from to [] Hns; simpl; auto. }
  assert (Hv : statusValidation body = []).
  { apply statusValidation_nil. split; [|exact Hlen].
    simpl in *. tauto. }
  assert (Hs : In (StatusBody.status body) Consultation.statuses).
  { simpl in *. tauto. }
  pose proof (validate_statusUpdate now user (StatusBody.status body)
                (StatusBody.cancellationReason body) c Hval Hs) as Hsave.
  subst r. unfold put_status, Consultation.save.
  rewrite Hv, Hc, Hauth, Htr, Hsave. simpl.
  split; [reflexivity|].
  eexists. split.
  - apply (findById_updateDoc _ id _ c _ Hc).
    apply (proj2 (statusUpdate_status _ _ _ _ _)).
  - apply (proj1 (statusUpdate_status _ _ _ _ _)).
Qed.

(** The client cancels the confirmed consultation of 1 June on 2 June. *)
Lemma status_update_accepts_witness :
  code (fst (put_status Scenario.june2_1000 Scenario.clientU Scenario.b1
               (StatusBody.mk "cancelled" None)
               (Scenario.withBooking Scenario.options "confirmed"))) = 200.
Proof.
  apply (status_update_accepts Scenario.june2_1000 Scenario.clientU
           Scenario.b1 (StatusBody.mk "cancelled" None)
           (Scenario.withBooking Scenario.options "confirmed")
           (Scenario.booking "confirmed")).
  - reflexivity.
  - reflexivity.
  - intros reason H. discriminate H.
  - reflexivity.
  - reflexivity.
  - discriminate.
Defined.

(** ** Identifiers that pass validation and do not cast *)

(** X8.  A create request whose service identifier carries the prefix
    [0x] or [0h] that validator's [isMongoId] lets through passes
    validation and is answered 500: the identifier is no ObjectId, and
    the service query throws. *)
Theorem prefixed_service_id_throws (now : Date) (newId : ObjectId)
  (user : ReqUser.t) (body : CreateBody.t) (st : Store.t)
  (c : ascii) (rest : string) :
  consultationValidation body = [] ->
  CreateBody.service body = String "0" (String c rest) ->
  In c ["x"; "X"; "h"; "H"]%char ->
  post_consultations now newId user body st
  = (fail 500 "Server error while booking consultation", st).
Proof.
  intros Hv Hs Hc.
  assert (Hid : isMongoId (CreateBody.service body) = true).
  { unfold consultationValidation in Hv. apply app_eq_nil in Hv.
    destruct Hv as [Hv _]. unfold rule in Hv.
    destruct (isMongoId (CreateBody.service body)); [reflexivity|].
    discriminate Hv. }
  unfold isMongoId in Hid. apply andb_true_iff in Hid.
  destruct Hid as [_ Hlen]. apply Z.eqb_eq in Hlen.
  assert (Hcast : castObjectId (Store.options st) (CreateBody.service body)
                  = None).
  { unfold castObjectId. rewrite Hlen, Hs. simpl forallb.
    assert (Hx : isHexDigit c = false).
    { simpl in Hc. destruct Hc as [<-|[<-|[<-|[<-|[]]]]]; reflexivity. }
    rewrite Hx. simpl. now rewrite andb_false_r. }
  unfold post_consultations. rewrite Hv, Hcast. reflexivity.
Qed.

(** A request for the service "0x" followed by 22 hexadecimal digits. *)
Lemma prefixed_service_id_throws_witness :
  post_consultations Scenario.now0 Scenario.b1 Scenario.clientU
    (CreateBody.mk "0x00000000000000000000a1" Scenario.consultantC
       (Instant Scenario.june1_1000) 60 "10:00" None None)
    (Scenario.empty Scenario.options)
  = (fail 500 "Server error while booking consultation",
     Scenario.empty Scenario.options).
Proof.
  apply (prefixed_service_id_throws Scenario.now0 Scenario.b1
           Scenario.clientU _ _ "x" "00000000000000000000a1").
  - reflexivity.
  - reflexivity.
  - simpl. auto.
Defined.

(** ** Availability *)

Lemma distinct_NoDup (l : list string) : distinct l = true -> NoDup l.
Proof.
  induction l as [|s l IH]; simpl; [constructor|].
  intros H. apply andb_true_iff in H. destruct H as [H1 H2].
  constructor; [|now apply IH].
  intros Hin. apply includes_In in Hin. rewrite Hin in H1. discriminate H1.
Qed.

Lemma slotGrid_NoDup : NoDup slotGrid.
Proof.
  apply distinct_NoDup. vm_compute. reflexivity.
Qed.

Lemma filter_all {A : Type} (p : A -> bool) (l : list A) :
  (forall x, In x l -> p x = true) -> filter p l = l.
Proof.
  induction l as [|x l IH]; simpl; [reflexivity|].
  intros H. rewrite (H x (or_introl eq_refl)). f_equal.
  apply IH. intros y Hy. apply H. now right.
Qed.

Lemma filter_andb {A : Type} (p q : A -> bool) (l : list A) :
  filter (fun x => p x && q x) l = filter q (filter p l).
Proof.
  induction l as [|x l IH]; simpl; [reflexivity|].
  destruct (p x); simpl; [destruct (q x)|]; now rewrite IH.
Qed.

(** Taking one string out of a list without repetition shortens it by
    one at most. *)
Lemma remove_label_length (a : string) (l : list string) :
  NoDup l ->
  (length l <= length (filter (fun x => negb (a === x)) l) + 1)%nat.
Proof.
  induction l as [|x l IH]; simpl; [lia|].
  intros H. inversion H as [|? ? Hx Hl]; subst.
  destruct (a === x) eqn:E; simpl.
  - apply String.eqb_eq in E. subst x.
    rewrite filter_all; [lia|].
    intros y Hy. apply negb_true_iff, String.eqb_neq.
    intros ->. contradiction.
  - specialize (IH Hl). lia.
Qed.

(** Each booked consultation hides one label at most. *)
Lemma hidden_at_most_one {A : Type} (label : A -> string) (booked : list A)
  (grid : list string) :
  NoDup grid ->
  (length grid
   <= length (filter (fun l => negb (existsb (fun c => label c === l) booked))
                grid)
      + length booked)%nat.
Proof.
  revert grid. induction booked as [|c booked IH]; intros grid Hnd; simpl.
  - rewrite filter_all; [lia | reflexivity].
  - rewrite (filter_ext _ (fun l => negb (label c === l)
                                    && negb (existsb (fun c0 => label c0 === l)
                                               booked)))
      by (intros l; apply negb_orb).
    rewrite filter_andb.
    pose proof (remove_label_length (label c) grid Hnd) as H1.
    pose proof (IH (filter (fun x => negb (label c === x)) grid)
                  (NoDup_filter _ Hnd)) as H2.
    lia.
Qed.

(** X9.  An availability request that is answered 200 offers labels of
    the half-hour grid from 09:00 to 16:30, each once, and a label is
    missing only if a booked consultation of the day starts at that local
    time, whatever the time zone of the server: each booked consultation
    hides one label at most, whatever its duration, so the slots offered
    and the bookings listed are 16 or more together, and all 16 slots are
    offered when nothing is booked. *)
Theorem availability_hides_one_slot_per_booking (zone : LocalTime.t)
  (consultantId : option string) (date : option (option Date))
  (st : Store.t) :
  let r := get_availability zone consultantId date st in
  code r = 200 ->
  exists a,
    data r = Some a
    /\ (forall label,
           In label (Availability.availableSlots a) <->
           In label slotGrid
           /\ forall time duration,
                In (time, duration) (Availability.bookedConsultations a) ->
                LocalTime.toTimeString5 zone time <> label)
    /\ NoDup (Availability.availableSlots a)
    /\ (16 <= length (Availability.availableSlots a)
              + length (Availability.bookedConsultations a))%nat
    /\ (Availability.bookedConsultations a = [] ->
        Availability.availableSlots a = slotGrid).
Proof.
  intros r. subst r. unfold get_availability.
  destruct date as [[targetDate|]|]; [| |refuted].
  - destruct (negb (truthy consultantId)); [refuted|].
    destruct (castObjectId _ _) as [consultant|]; [|refuted].
    intros _. eexists. split; [reflexivity|]. simpl.
    set (booked := filter _ (Store.consultations st)).
    unfold generateAvailableTimeSlots.
    split; [|split; [|split]].
    + intros label. rewrite filter_In. split.
      * intros [Hg Hn]. split; [exact Hg|].
        intros time duration Hin Heq. apply in_map_iff in Hin.
        destruct Hin as (c & Hc & Hin). injection Hc as <- <-.
        apply negb_true_iff in Hn.
        assert (E : existsb (fun consultation =>
                               LocalTime.toTimeString5 zone
                                 (Consultation.scheduledDate consultation)
                               === label) booked = true).
        { apply existsb_exists. exists c. split; [exact Hin|].
          now apply String.eqb_eq. }
        congruence.
      * intros [Hg Hn]. split; [exact Hg|].
        apply negb_true_iff.
        destruct (existsb _ booked) eqn:E; [|reflexivity].
        exfalso. apply existsb_exists in E. destruct E as (c & Hin & Hc).
        apply String.eqb_eq in Hc.
        apply (Hn (Consultation.scheduledDate c) (Consultation.duration c));
          [|exact Hc].
        apply in_map_iff. now exists c.
    + apply NoDup_filter, slotGrid_NoDup.
    + rewrite length_map.
      apply (hidden_at_most_one
               (fun c => LocalTime.toTimeString5 zone
                           (Consultation.scheduledDate c))
               booked slotGrid slotGrid_NoDup).
    + intros Hb. apply map_eq_nil in Hb. rewrite Hb.
      apply filter_all. reflexivity.
  - destruct (negb (truthy consultantId)); refuted.
Qed.

(** The day of the confirmed consultation of consultant C, the server
    being on UTC: the slot 10:00 is hidden and the other 15 are
    offered. *)
Lemma availability_hides_one_slot_per_booking_witness :
  exists a,
    data (get_availability LocalTime.utc (Some Scenario.consultantC)
            (Some (Some Scenario.june1_1030))
            (Scenario.withBooking Scenario.options "confirmed")) = Some a
    /\ (16 <= length (Availability.availableSlots a)
              + length (Availability.bookedConsultations a))%nat.
Proof.
  destruct (availability_hides_one_slot_per_booking LocalTime.utc
              (Some Scenario.consultantC) (Some (Some Scenario.june1_1030))
              (Scenario.withBooking Scenario.options "confirmed") eq_refl)
    as (a & Ha & _ & _ & Hl & _).
  exists a. split; [exact Ha | exact Hl].
Defined.
